(** * The remote-execution decorator of the SDK ([volt/sdk/decorators.py])

    A shallow embedding of the [wrapper] closure that the [machine]
    decorator returns, and the properties of its pipeline: executor selection,
    provisioning, packaging, environment set-up, remote run, result
    classification and teardown.

    Modelling conventions.
    - Python values are the inductive [pyval]; floats are left out, dict keys
      are strings, and an object [json] cannot encode is [POpaque].
    - The collaborators (the [Lium] SDK object, the local file system, the
      clock and the random generator) are an environment [Env]: a function
      from the history of the invocation and the call being made to the
      response.  A response is a value or a raised exception.  Every raised
      exception is an instance of Python's [Exception]: an [Exn] never stands
      for a [KeyboardInterrupt], a [SystemExit] or another exception that
      [except Exception] lets through.
    - Python's [str.lower], like [repr] on [str], is taken as given; what it
      does on ASCII text is [ascii_lower].
    - The code runs in the monad [M]: environment in, state threaded,
      [Result] out.  The state holds the trace of collaborator calls and the
      local variables of [wrapper] that its [finally] blocks read.
    - Every collaborator call is recorded in the trace together with the
      program point (source line) that issued it. *)

From Stdlib Require Import String Ascii List ZArith Lia Bool DecimalString.
Import ListNotations.
Open Scope string_scope.
Set Warnings "-register-all".

(* ================================================================= *)
(** ** Strings as Python uses them *)

Module PyStr.

Definition nl : string := String "010" EmptyString.

Definition nonempty (s : string) : bool :=
  match s with EmptyString => false | String _ _ => true end.

(** [str(int)] *)
Definition string_of_Z (z : Z) : string := NilZero.string_of_int (Z.to_int z).

(** [c.lower()] for an ASCII character: a capital becomes its small letter,
    32 code points further on; any other character is kept. *)
Definition lower_ascii (c : ascii) : ascii :=
  let n := nat_of_ascii c in
  if andb (Nat.leb 65 n) (Nat.leb n 90) then ascii_of_nat (n + 32) else c.

(** [s.lower()] for ASCII text.  Outside ASCII Python folds further letters,
    which this function keeps: it is not [str.lower] there. *)
Fixpoint ascii_lower (s : string) : string :=
  match s with
  | EmptyString => EmptyString
  | String c t => String (lower_ascii c) (ascii_lower t)
  end.

(** [s.isascii()] *)
Fixpoint is_ascii (s : string) : bool :=
  match s with
  | EmptyString => true
  | String c t => andb (Nat.ltb (nat_of_ascii c) 128) (is_ascii t)
  end.

(** [needle in hay] on [str]: substring test. *)
Fixpoint contains (needle hay : string) : bool :=
  if String.prefix needle hay then true
  else match hay with
       | EmptyString => false
       | String _ t => contains needle t
       end.

(** [sep.join(parts)] *)
Fixpoint join (sep : string) (parts : list string) : string :=
  match parts with
  | [] => EmptyString
  | [x] => x
  | x :: t => x ++ sep ++ join sep t
  end.

(** [s.split('\n')]: always at least one field. *)
Fixpoint split_lines (s : string) : list string :=
  match s with
  | EmptyString => [EmptyString]
  | String c t =>
      if Ascii.eqb c "010" then EmptyString :: split_lines t
      else match split_lines t with
           | [] => [String c EmptyString]
           | l :: ls => String c l :: ls
           end
  end.

(** The characters [shlex.quote] leaves alone: [[a-zA-Z0-9_@%+=:,./-]]. *)
Definition shell_safe (c : ascii) : bool :=
  let n := nat_of_ascii c in
  orb (andb (Nat.leb 97 n) (Nat.leb n 122))
 (orb (andb (Nat.leb 65 n) (Nat.leb n 90))
 (orb (andb (Nat.leb 48 n) (Nat.leb n 57))
      (existsb (Ascii.eqb c) ["_"; "@"; "%"; "+"; "="; ":"; ","; "."; "/"; "-"]%char))).

Fixpoint all_safe (s : string) : bool :=
  match s with
  | EmptyString => true
  | String c t => andb (shell_safe c) (all_safe t)
  end.

(** [s.replace] of every single quote by: single quote, double quote,
    single quote, double quote, single quote. *)
Fixpoint escape_quotes (s : string) : string :=
  match s with
  | EmptyString => EmptyString
  | String c t =>
      if Ascii.eqb c "'"
      then String "'" (String "034" (String "'" (String "034" (String "'" (escape_quotes t)))))
      else String c (escape_quotes t)
  end.

(** [shlex.quote(s)] *)
Definition quote (s : string) : string :=
  match s with
  | EmptyString => "''"
  | _ => if all_safe s then s else "'" ++ escape_quotes s ++ "'"
  end.

End PyStr.
Import PyStr.

(* ================================================================= *)
(** ** Python values, exceptions and JSON documents *)

Module Py.

Inductive pyval : Type :=
| PNone
| PBool (b : bool)
| PInt (z : Z)
| PStr (s : string)
| PList (l : list pyval)
| PTuple (l : list pyval)
| PDict (d : list (string * pyval))
| POpaque (tyname : string) (text : string).

(** A raised exception: its class name and [str(e)]. *)
Record Exn : Type := mkExn { exc_class : string; exc_msg : string }.

Inductive Result (A : Type) : Type :=
| Ok (a : A)
| Raise (e : Exn).
Arguments Ok {A} a.
Arguments Raise {A} e.

Definition LiumError (msg : string) : Exn := mkExn "LiumError" msg.

(** [bool(v)] *)
Definition truthy (v : pyval) : bool :=
  match v with
  | PNone => false
  | PBool b => b
  | PInt z => negb (Z.eqb z 0)
  | PStr s => nonempty s
  | PList l | PTuple l => match l with [] => false | _ => true end
  | PDict d => match d with [] => false | _ => true end
  | POpaque _ _ => true
  end.

(** [type(v).__name__] *)
Definition py_typename (v : pyval) : string :=
  match v with
  | PNone => "NoneType"
  | PBool _ => "bool"
  | PInt _ => "int"
  | PStr _ => "str"
  | PList _ => "list"
  | PTuple _ => "tuple"
  | PDict _ => "dict"
  | POpaque ty _ => ty
  end.

(** Dicts are association lists in insertion order with distinct keys. *)
Fixpoint dict_get {A} (k : string) (d : list (string * A)) : option A :=
  match d with
  | [] => None
  | (k', v) :: t => if String.eqb k k' then Some v else dict_get k t
  end.

(** [d[k] = v]: an existing key keeps its place. *)
Fixpoint dict_set {A} (k : string) (v : A) (d : list (string * A)) : list (string * A) :=
  match d with
  | [] => [(k, v)]
  | (k', v') :: t => if String.eqb k k' then (k', v) :: t else (k', v') :: dict_set k v t
  end.

(** [v.get(k, default)] *)
Definition py_get (v : pyval) (k : string) (default : pyval) : Result pyval :=
  match v with
  | PDict d => Ok (match dict_get k d with Some x => x | None => default end)
  | _ => Raise (mkExn "AttributeError"
                  ("'" ++ py_typename v ++ "' object has no attribute 'get'"))
  end.

(** [v[k]] for a string key [k]. *)
Definition py_getitem (v : pyval) (k : string) : Result pyval :=
  match v with
  | PDict d => match dict_get k d with
               | Some x => Ok x
               | None => Raise (mkExn "KeyError" ("'" ++ k ++ "'"))
               end
  | _ => Raise (mkExn "TypeError" ("'" ++ py_typename v ++ "' object is not subscriptable"))
  end.


(** A JSON document (numbers are integers here). *)
Inductive json : Type :=
| JNull
| JBool (b : bool)
| JNum (z : Z)
| JStr (s : string)
| JArr (l : list json)
| JObj (members : list (string * json)).


(** The Python object [json.load] builds from a document: arrays become
    lists, objects become dicts, a repeated member name keeps the last value. *)
Fixpoint json_load (j : json) : pyval :=
  match j with
  | JNull => PNone
  | JBool b => PBool b
  | JNum z => PInt z
  | JStr s => PStr s
  | JArr l => PList (List.map json_load l)
  | JObj members =>
      PDict ((fix go (ms : list (string * json)) (acc : list (string * pyval)) :=
                match ms with
                | [] => acc
                | (k, x) :: t => go t (dict_set k (json_load x) acc)
                end) members [])
  end.









End Py.
Import Py.

(* ================================================================= *)
(** ** The collaborators: SDK, file system, clock *)

Module World.

(** The fields of the SDK's data classes that [wrapper] reads. *)
Record ExecutorInfo : Type := mkExecutor { id : string; machine_name : string }.
Record Template : Type := mkTemplate { template_id : string }.
Record PodDict : Type := mkPodDict { pod_dict_id : string }.
Record PodInfo : Type := mkPodInfo { pod_id : string }.

(** The dict [sdk.exec] returns. *)
Record ExecResult : Type := mkExecResult { success : bool; stdout : string; stderr : string }.

(** Program points of [wrapper] that issue the same kind of call. *)
Inductive TimeSite : Type := AtPodName | AtVenvName.
Inductive FileSite : Type := AtRunnerFile | AtResultFile.
Inductive ExecSite : Type := AtVenv | AtInstall | AtRun | AtRmVenv.

(** Calls that may raise. *)
Inductive Call : Type -> Type :=
| CLium : Call unit
| CLs : Call (list ExecutorInfo)
| CDefaultTemplate (executor_id : string) : Call (option Template)
| CUp (executor_id name : string) (template : option string) : Call PodDict
| CWaitReady (pod : PodDict) (timeout : Z) : Call (option PodInfo)
| CMkTemp (site : FileSite) (suffix : string) : Call string
| CWrite (path content : string) : Call unit
| CUpload (pod : PodInfo) (local remote : string) : Call unit
| CExec (site : ExecSite) (pod : PodInfo) (command : string) : Call ExecResult
| CDownload (pod : PodInfo) (remote local : string) : Call unit
| CReadJson (path : string) : Call json
| CUnlink (site : FileSite) (path : string) : Call unit
| CDown (pod : PodInfo) : Call unit.

(** Calls that always answer: [int(time.time())], [random.randint(lo, hi)],
    [os.path.exists(path)]. *)
Inductive Query : Type -> Type :=
| QTime (site : TimeSite) : Query Z
| QRandint (lo hi : Z) : Query Z
| QExists (path : string) : Query bool.

(** One entry of the trace: the call and what came back. *)
Inductive Event : Type :=
| EvLium (r : Result unit)
| EvLs (r : Result (list ExecutorInfo))
| EvDefaultTemplate (executor_id : string) (r : Result (option Template))
| EvUp (executor_id name : string) (template : option string) (r : Result PodDict)
| EvWaitReady (pod : PodDict) (timeout : Z) (r : Result (option PodInfo))
| EvMkTemp (site : FileSite) (suffix : string) (r : Result string)
| EvWrite (path content : string) (r : Result unit)
| EvUpload (pod : PodInfo) (local remote : string) (r : Result unit)
| EvExec (site : ExecSite) (pod : PodInfo) (command : string) (r : Result ExecResult)
| EvDownload (pod : PodInfo) (remote local : string) (r : Result unit)
| EvReadJson (path : string) (r : Result json)
| EvUnlink (site : FileSite) (path : string) (r : Result unit)
| EvDown (pod : PodInfo) (r : Result unit)
| EvTime (site : TimeSite) (now : Z)
| EvRandint (lo hi : Z) (n : Z)
| EvExists (path : string) (b : bool).

Definition event_of_call {T} (c : Call T) : Result T -> Event :=
  match c in Call T return Result T -> Event with
  | CLium => EvLium
  | CLs => EvLs
  | CDefaultTemplate e => EvDefaultTemplate e
  | CUp e n t => EvUp e n t
  | CWaitReady p t => EvWaitReady p t
  | CMkTemp s x => EvMkTemp s x
  | CWrite p c => EvWrite p c
  | CUpload p l r => EvUpload p l r
  | CExec s p c => EvExec s p c
  | CDownload p r l => EvDownload p r l
  | CReadJson p => EvReadJson p
  | CUnlink s p => EvUnlink s p
  | CDown p => EvDown p
  end.

Definition event_of_query {T} (q : Query T) : T -> Event :=
  match q in Query T return T -> Event with
  | QTime s => EvTime s
  | QRandint lo hi => EvRandint lo hi
  | QExists p => EvExists p
  end.

(** The environment of one invocation.  The history is the log so far,
    newest entry first. *)
Record Env : Type := mkEnv {
  respond : forall T, list Event -> Call T -> Result T;
  answer : forall T, list Event -> Query T -> T
}.

(** The local variables of [wrapper] that outlive a [try] body, and the log. *)
Record State : Type := mkState {
  log : list Event;
  pod_info : option PodInfo;
  venv_path : option string;
  result_data : pyval;
  result_file : option string
}.

Definition initial : State := mkState [] None None PNone None.

(** The calls of an invocation in the order they were made. *)
Definition trace (st : State) : list Event := rev (log st).

End World.
Import World.

(* ================================================================= *)
(** ** The monad of [wrapper] *)

Module Monad.

Definition M (A : Type) : Type := Env -> State -> Result A * State.

Definition ret {A} (a : A) : M A := fun _ st => (Ok a, st).

Definition raise {A} (e : Exn) : M A := fun _ st => (Raise e, st).

Definition bind {A B} (m : M A) (k : A -> M B) : M B :=
  fun env st =>
    match m env st with
    | (Ok a, st') => k a env st'
    | (Raise e, st') => (Raise e, st')
    end.

Definition lift {A} (r : Result A) : M A := fun _ st => (r, st).

Definition record (ev : Event) (st : State) : State :=
  mkState (ev :: log st) (pod_info st) (venv_path st) (result_data st) (result_file st).

Definition call {T} (c : Call T) : M T :=
  fun env st =>
    let r := respond env T (log st) c in
    (r, record (event_of_call c r) st).

Definition ask {T} (q : Query T) : M T :=
  fun env st =>
    let a := answer env T (log st) q in
    (Ok a, record (event_of_query q a) st).

(** [try: body finally: fin] *)
Definition try_finally {A} (body : M A) (fin : M unit) : M A :=
  fun env st =>
    match body env st with
    | (r, st1) =>
        match fin env st1 with
        | (Ok _, st2) => (r, st2)
        | (Raise e, st2) => (Raise e, st2)
        end
    end.

(** [try: body except Exception: handler].  An [Exn] is an instance of
    [Exception] (see the conventions), so the handler takes every [Raise]. *)
Definition try_except {A} (body : M A) (handler : M A) : M A :=
  fun env st =>
    match body env st with
    | (Ok a, st1) => (Ok a, st1)
    | (Raise _, st1) => handler env st1
    end.

Definition get_state : M State := fun _ st => (Ok st, st).

Definition set_pod_info (p : option PodInfo) : M unit :=
  fun _ st => (Ok tt, mkState (log st) p (venv_path st) (result_data st) (result_file st)).

Definition set_venv_path (p : string) : M unit :=
  fun _ st => (Ok tt, mkState (log st) (pod_info st) (Some p) (result_data st) (result_file st)).

Definition set_result_data (v : pyval) : M unit :=
  fun _ st => (Ok tt, mkState (log st) (pod_info st) (venv_path st) v (result_file st)).

Definition set_result_file (p : option string) : M unit :=
  fun _ st => (Ok tt, mkState (log st) (pod_info st) (venv_path st) (result_data st) p).

Definition when (b : bool) (m : M unit) : M unit := if b then m else ret tt.

End Monad.
Import Monad.

Declare Scope py_scope.
Delimit Scope py_scope with py.
Notation "x <- m ;; k" := (bind m (fun x => k))
  (at level 61, m at next level, right associativity) : py_scope.
Notation "m ;; k" := (bind m (fun _ => k))
  (at level 61, right associativity) : py_scope.
Open Scope py_scope.

(* ================================================================= *)
(** ** The decorated function and the decorator's arguments *)

(** The decorated function: [func.__name__], what [inspect.getsource(func)]
    gives, and what calling it does. *)
Record PyFunc : Type := mkFunc {
  fn_name : string;
  fn_source : Result string;
  fn_call : list pyval -> list (string * pyval) -> Result pyval
}.

(** The arguments of [machine(...)]. *)
Record Config : Type := mkConfig {
  machine : string;
  template_arg : option string;
  cleanup : bool;
  requirements : option (list string)
}.

(* ================================================================= *)
(** ** Scripted environments *)

Module Script.

(** An environment that answers by kind of call, whatever the history. *)
Record Scenario : Type := mkScenario {
  sc_listing : Result (list ExecutorInfo);
  sc_ready : Result (option PodInfo);
  sc_upload : Result unit;
  sc_venv : Result ExecResult;
  sc_install : Result ExecResult;
  sc_run : Result ExecResult;
  sc_download : Result unit;
  sc_artifact : Result json;
  sc_unlink_runner : Result unit;
  sc_down : Result unit
}.

Definition ok_exec : ExecResult := mkExecResult true "" "".

Definition scripted_respond (sc : Scenario) (T : Type) (_ : list Event) (c : Call T)
  : Result T :=
  match c in Call T return Result T with
  | CLium => Ok tt
  | CLs => sc_listing sc
  | CDefaultTemplate _ => Ok (Some (mkTemplate "tpl-1"))
  | CUp _ name _ => Ok (mkPodDict name)
  | CWaitReady _ _ => sc_ready sc
  | CMkTemp AtRunnerFile _ => Ok "/tmp/tmpa.py"
  | CMkTemp AtResultFile _ => Ok "/tmp/tmpb"
  | CWrite _ _ => Ok tt
  | CUpload _ _ _ => sc_upload sc
  | CExec AtVenv _ _ => sc_venv sc
  | CExec AtInstall _ _ => sc_install sc
  | CExec AtRun _ _ => sc_run sc
  | CExec AtRmVenv _ _ => Ok ok_exec
  | CDownload _ _ _ => sc_download sc
  | CReadJson _ => sc_artifact sc
  | CUnlink AtRunnerFile _ => sc_unlink_runner sc
  | CUnlink AtResultFile _ => Ok tt
  | CDown _ => sc_down sc
  end.

Definition scripted_answer (T : Type) (_ : list Event) (q : Query T) : T :=
  match q in Query T return T with
  | QTime _ => 1700000000%Z
  | QRandint lo _ => lo
  | QExists _ => true
  end.

Definition scripted (sc : Scenario) : Env := mkEnv (scripted_respond sc) scripted_answer.

Definition listing : list ExecutorInfo :=
  [mkExecutor "ex-1" "NVIDIA A100-SXM4-80GB"; mkExecutor "ex-2" "H200"].

Definition pod : PodInfo := mkPodInfo "pod-1".

(** Every collaborator succeeds and the artifact is [artifact]. *)
Definition smooth (artifact : json) : Scenario :=
  mkScenario (Ok listing) (Ok (Some pod)) (Ok tt) (Ok ok_exec) (Ok ok_exec) (Ok ok_exec)
             (Ok tt) (Ok artifact) (Ok tt) (Ok tt).

(** The pod never becomes ready. *)
Definition never_ready : Scenario :=
  mkScenario (Ok listing) (Ok None) (Ok tt) (Ok ok_exec) (Ok ok_exec) (Ok ok_exec)
             (Ok tt) (Ok JNull) (Ok tt) (Ok tt).

(** No executor of the listing is an A100. *)
Definition only_h200 : Scenario :=
  mkScenario (Ok [mkExecutor "ex-2" "H200"]) (Ok (Some pod)) (Ok tt) (Ok ok_exec)
             (Ok ok_exec) (Ok ok_exec) (Ok tt) (Ok JNull) (Ok tt) (Ok tt).

(** pip fails. *)
Definition pip_error : ExecResult :=
  mkExecResult false "" "ERROR: No matching distribution found for numpy==1.26.0".

Definition install_fails : Scenario :=
  mkScenario (Ok listing) (Ok (Some pod)) (Ok tt) (Ok ok_exec) (Ok pip_error) (Ok ok_exec)
             (Ok tt) (Ok JNull) (Ok tt) (Ok tt).

(** The runner exits with a non-zero status and text on both streams. *)
Definition crashed : ExecResult := mkExecResult false "out" "boom".

Definition run_fails (artifact : json) : Scenario :=
  mkScenario (Ok listing) (Ok (Some pod)) (Ok tt) (Ok ok_exec) (Ok ok_exec) (Ok crashed)
             (Ok tt) (Ok artifact) (Ok tt) (Ok tt).

(** Everything succeeds, but the local script file is gone when the inner
    [finally] unlinks it. *)
Definition file_not_found : Exn :=
  mkExn "FileNotFoundError" "[Errno 2] No such file or directory: '/tmp/tmpa.py'".

Definition script_file_gone (artifact : json) : Scenario :=
  mkScenario (Ok listing) (Ok (Some pod)) (Ok tt) (Ok ok_exec) (Ok ok_exec) (Ok ok_exec)
             (Ok tt) (Ok artifact) (Raise file_not_found) (Ok tt).

(** pip fails, and the local script file is gone when the inner [finally]
    unlinks it. *)
Definition install_fails_script_gone : Scenario :=
  mkScenario (Ok listing) (Ok (Some pod)) (Ok tt) (Ok ok_exec) (Ok pip_error) (Ok ok_exec)
             (Ok tt) (Ok JNull) (Raise file_not_found) (Ok tt).

(** A stand-in for [repr] on [str], right for text without quotes,
    backslashes or control characters. *)
Definition plain_repr (s : string) : string := "'" ++ s ++ "'".


(** [@machine("A100", requirements=["numpy==1.26.0", ""])] *)
Definition a100 : Config := mkConfig "A100" None true (Some ["numpy==1.26.0"; ""]).

(** [@machine("A100")] *)
Definition a100_plain : Config := mkConfig "A100" None true None.

(** [@machine("a100")] *)
Definition a100_small : Config := mkConfig "a100" None true None.

(** The source [inspect.getsource] gives for a decorated function. *)
Definition pair_source : string :=
  "@machine('A100')" ++ nl ++ "def pair():" ++ nl ++ "    return (1, 2)".

(** [def pair(): return (1, 2)] *)
Definition make_pair : PyFunc :=
  mkFunc "pair" (Ok pair_source) (fun _ _ => Ok (PTuple [PInt 1; PInt 2])).

(** [def point(): return {"x": 1}] *)
Definition make_point : PyFunc :=
  mkFunc "point"
         (Ok ("@machine('A100')" ++ nl ++ "def point():" ++ nl ++ "    return {'x': 1}"))
         (fun _ _ => Ok (PDict [("x", PInt 1)])).

(** The artifacts a faithful remote interpreter leaves for [make_point] and for
    [make_pair], and one for a function that divided by zero. *)
Definition point_artifact : json :=
  JObj [("success", JBool true); ("result", JObj [("x", JNum 1)])].


Definition zero_division_artifact : json :=
  JObj [("success", JBool false); ("error", JStr "division by zero");
        ("traceback",
         JStr ("Traceback (most recent call last):" ++ nl
               ++ "ZeroDivisionError: division by zero" ++ nl))].

(** The runner script of [make_point] called on no arguments, written out. *)
Definition point_script : string :=
  "#!/usr/bin/env python3" ++ nl ++
  "import sys" ++ nl ++
  "import traceback" ++ nl ++
  "import json" ++ nl ++
  nl ++
  "# Function source code" ++ nl ++
  "def point():" ++ nl ++
  "    return {'x': 1}" ++ nl ++
  nl ++
  "try:" ++ nl ++
  "    # Arguments" ++ nl ++
  "    args = ()" ++ nl ++
  "    kwargs = {}" ++ nl ++
  nl ++
  "    # Execute function" ++ nl ++
  "    result = point(*args, **kwargs)" ++ nl ++
  nl ++
  "    # Save result as JSON" ++ nl ++
  "    with open('/tmp/result.json', 'w') as f:" ++ nl ++
  "        json.dump({'success': True, 'result': result}, f)" ++ nl ++
  nl ++
  "except Exception as e:" ++ nl ++
  "    # Save error" ++ nl ++
  "    with open('/tmp/result.json', 'w') as f:" ++ nl ++
  "        json.dump({" ++ nl ++
  "            'success': False," ++ nl ++
  "            'error': str(e)," ++ nl ++
  "            'traceback': traceback.format_exc()" ++ nl ++
  "        }, f)" ++ nl ++
  "    sys.exit(1)" ++ nl.

(** A remote interpreter that knows this one script: running it leaves
    [point_artifact] and exits with status 0.  Any other text leaves nothing
    that reads as a result. *)
Definition point_interpreter (script : string) : json * bool :=
  if String.eqb script point_script then (point_artifact, true) else (JNull, false).

(** The text last written to the local file [path]. *)
Fixpoint written_to (path : string) (hist : list Event) : option string :=
  match hist with
  | [] => None
  | EvWrite p content (Ok _) :: rest =>
      if String.eqb p path then Some content else written_to path rest
  | _ :: rest => written_to path rest
  end.

(** The local file last uploaded to [/tmp/runner.py]. *)
Fixpoint uploaded_runner (hist : list Event) : option string :=
  match hist with
  | [] => None
  | EvUpload _ local remote (Ok _) :: rest =>
      if String.eqb remote "/tmp/runner.py" then Some local else uploaded_runner rest
  | _ :: rest => uploaded_runner rest
  end.

Definition runner_was_run (ev : Event) : bool :=
  match ev with EvExec AtRun _ _ (Ok _) => true | _ => false end.

Definition artifact_fetched_to (path : string) (ev : Event) : bool :=
  match ev with
  | EvDownload _ remote local (Ok _) =>
      andb (String.eqb remote "/tmp/result.json") (String.eqb local path)
  | _ => false
  end.

Definition no_artifact : Exn :=
  mkExn "FileNotFoundError" "[Errno 2] No such file or directory: '/tmp/tmpb'".

(** A remote machine that runs scripts with [interp].  What [json.load]
    reads from a local file is what [interp] leaves for the script that was
    written, uploaded to [/tmp/runner.py] and run, once [/tmp/result.json]
    was downloaded to that file; with one of these steps missing there is
    nothing to read.  Every other call is answered as in [sc]. *)
Definition remote_world (interp : string -> json * bool) (sc : Scenario) : Env :=
  mkEnv
    (fun T hist c =>
       match c in Call T return Result T -> Result T with
       | CReadJson path => fun _ =>
           match uploaded_runner hist with
           | Some local =>
               match written_to local hist with
               | Some script =>
                   if andb (existsb runner_was_run hist)
                           (existsb (artifact_fetched_to path) hist)
                   then Ok (fst (interp script))
                   else Raise no_artifact
               | None => Raise no_artifact
               end
           | None => Raise no_artifact
           end
       | _ => fun r => r
       end (scripted_respond sc T hist c))
    scripted_answer.

End Script.

(* ================================================================= *)
(** ** The decorator *)

(** An ASCII capital letter. *)
Definition is_capital (c : ascii) : bool :=
  andb (Nat.leb 65 (nat_of_ascii c)) (Nat.leb (nat_of_ascii c) 90).

(** Two characters are the same letter when case is ignored: they are
    equal, or one is an ASCII capital and the other its small letter. *)
Definition same_letter (c d : ascii) : bool :=
  orb (Ascii.eqb c d)
 (orb (andb (is_capital c) (Nat.eqb (nat_of_ascii d) (nat_of_ascii c + 32)))
      (andb (is_capital d) (Nat.eqb (nat_of_ascii c) (nat_of_ascii d + 32)))).

(** Two texts that differ in the case of their letters only. *)
Fixpoint caseless_eq (s t : string) : bool :=
  match s, t with
  | EmptyString, EmptyString => true
  | String c s', String d t' => andb (same_letter c d) (caseless_eq s' t')
  | _, _ => false
  end.

(** [spec] occurs in [name] when case is ignored: a stretch of [name] is
    [spec], letter for letter, up to case. *)
Definition ci_substring (spec name : string) : Prop :=
  exists a mid b, name = a ++ mid ++ b /\ caseless_eq spec mid = true.

(** The projections of a trace onto one kind of event. *)
Fixpoint pick {A} (f : Event -> option A) (tr : list Event) : list A :=
  match tr with
  | [] => []
  | ev :: rest =>
      match f ev with
      | Some a => a :: pick f rest
      | None => pick f rest
      end
  end.

Definition ls_of (ev : Event) : option (Result (list ExecutorInfo)) :=
  match ev with EvLs r => Some r | _ => None end.

Definition wait_ready_of (ev : Event) : option (PodDict * Z * Result (option PodInfo)) :=
  match ev with EvWaitReady p t r => Some (p, t, r) | _ => None end.

Definition exec_of (site : ExecSite) (ev : Event)
  : option (PodInfo * string * Result ExecResult) :=
  match ev with
  | EvExec s p c r =>
      match site, s with
      | AtVenv, AtVenv | AtInstall, AtInstall | AtRun, AtRun | AtRmVenv, AtRmVenv =>
          Some (p, c, r)
      | _, _ => None
      end
  | _ => None
  end.

Definition read_json_of (ev : Event) : option (string * Result json) :=
  match ev with EvReadJson p r => Some (p, r) | _ => None end.

Definition write_of (ev : Event) : option (string * string * Result unit) :=
  match ev with EvWrite p c r => Some (p, c, r) | _ => None end.

Definition unlink_failure_of (ev : Event) : option (FileSite * string * Exn) :=
  match ev with EvUnlink s p (Raise e) => Some (s, p, e) | _ => None end.

(** Events of the Remote Session: upload, remote command, download. *)
Definition is_remote_session (ev : Event) : bool :=
  match ev with
  | EvUpload _ _ _ _ | EvExec _ _ _ _ | EvDownload _ _ _ _ => true
  | _ => false
  end.

(** [next(i for i, line in enumerate(lines) if 'def ' in line)] *)
Fixpoint def_index (lines : list string) : option nat :=
  match lines with
  | [] => None
  | line :: rest =>
      if contains "def " line then Some 0%nat
      else option_map S (def_index rest)
  end.

(** Step 3: the source from its first line holding ['def '] on. *)
Definition strip_decorators (func_source : string) : Result string :=
  let lines := split_lines func_source in
  match def_index lines with
  | None => Raise (mkExn "StopIteration" "")
  | Some i => Ok (join nl (skipn i lines))
  end.

Definition script_header : string :=
  "#!/usr/bin/env python3" ++ nl ++
  "import sys" ++ nl ++
  "import traceback" ++ nl ++
  "import json" ++ nl ++
  nl ++
  "# Function source code" ++ nl.

Definition script_footer (func_name args_repr kwargs_repr : string) : string :=
  nl ++
  nl ++
  "try:" ++ nl ++
  "    # Arguments" ++ nl ++
  "    args = " ++ args_repr ++ nl ++
  "    kwargs = " ++ kwargs_repr ++ nl ++
  nl ++
  "    # Execute function" ++ nl ++
  "    result = " ++ func_name ++ "(*args, **kwargs)" ++ nl ++
  nl ++
  "    # Save result as JSON" ++ nl ++
  "    with open('/tmp/result.json', 'w') as f:" ++ nl ++
  "        json.dump({'success': True, 'result': result}, f)" ++ nl ++
  nl ++
  "except Exception as e:" ++ nl ++
  "    # Save error" ++ nl ++
  "    with open('/tmp/result.json', 'w') as f:" ++ nl ++
  "        json.dump({" ++ nl ++
  "            'success': False," ++ nl ++
  "            'error': str(e)," ++ nl ++
  "            'traceback': traceback.format_exc()" ++ nl ++
  "        }, f)" ++ nl ++
  "    sys.exit(1)" ++ nl.

Section Harness.

(** Python's [repr] on [str] and [traceback.format_exc()] for the exception
    being handled are taken as given. *)
Variable repr_str : string -> string.
Variable format_exc : Exn -> string.

(** Python's [str.lower]. *)
Variable str_lower : string -> string.

(** [str_lower] is right on ASCII text. *)
Definition folds_ascii : Prop :=
  forall s, is_ascii s = true -> str_lower s = ascii_lower s.

(** [machine.lower() in executor.machine_name.lower()] *)
Definition matches (machine : string) (executor : ExecutorInfo) : bool :=
  contains (str_lower machine) (str_lower (machine_name executor)).

(** Step 1, the loop over [executors]. *)
Fixpoint find_executor (machine : string) (executors : list ExecutorInfo)
  : option ExecutorInfo :=
  match executors with
  | [] => None
  | executor :: rest =>
      if matches machine executor then Some executor
      else find_executor machine rest
  end.

(** The lower-cased [spec] occurs in the lower-cased [name]. *)
Definition folded_substring (spec name : string) : Prop :=
  exists a b, str_lower name = a ++ str_lower spec ++ b.

(** [repr(v)] *)
Fixpoint py_repr (v : pyval) : string :=
  match v with
  | PNone => "None"
  | PBool b => if b then "True" else "False"
  | PInt z => string_of_Z z
  | PStr s => repr_str s
  | PList l => "[" ++ join ", " (List.map py_repr l) ++ "]"
  | PTuple l =>
      match l with
      | [x] => "(" ++ py_repr x ++ ",)"
      | _ => "(" ++ join ", " (List.map py_repr l) ++ ")"
      end
  | PDict d =>
      "{" ++ join ", " (List.map (fun kv => repr_str (fst kv) ++ ": " ++ py_repr (snd kv)) d) ++ "}"
  | POpaque _ text => text
  end.

(** [str(v)], which an f-string applies to the value it formats. *)
Definition py_str (v : pyval) : string :=
  match v with
  | PStr s => s
  | _ => py_repr v
  end.

(** Step 4: the text of the runner script. *)
Definition runner_script (func_source func_name : string)
  (args : list pyval) (kwargs : list (string * pyval)) : string :=
  script_header ++ func_source ++
  script_footer func_name (py_repr (PTuple args)) (py_repr (PDict kwargs)).



(** Lines 162 to 174: what the downloaded artifact and the remote streams
    make of the invocation. *)
Definition classify (result_data : pyval) (exec_result : ExecResult) : Result pyval :=
  match (if truthy result_data
         then match py_get result_data "success" PNone with
              | Ok s => Ok (truthy s)
              | Raise e => Raise e
              end
         else Ok false) with
  | Raise e => Raise e
  | Ok true => py_getitem result_data "result"
  | Ok false =>
      match (if truthy result_data
             then match py_get result_data "success" (PBool true) with
                  | Ok s => Ok (negb (truthy s))
                  | Raise e => Raise e
                  end
             else Ok false) with
      | Raise e => Raise e
      | Ok true =>
          match py_get result_data "error" (PStr "Unknown remote error") with
          | Raise e => Raise e
          | Ok err_msg =>
              match py_get result_data "traceback" PNone with
              | Raise e => Raise e
              | Ok tb =>
                  let err_msg :=
                    if truthy tb
                    then py_str err_msg ++ nl ++ nl ++ "Traceback:" ++ nl ++ py_str tb
                    else py_str err_msg in
                  Raise (LiumError ("Remote execution failed:" ++ nl ++ err_msg))
              end
          end
      | Ok false =>
          let stderr :=
            if nonempty (stderr exec_result) then stderr exec_result
            else if nonempty (stdout exec_result) then stdout exec_result
            else "Unknown remote error" in
          Raise (LiumError ("Remote execution failed:" ++ nl ++ stderr))
      end
  end.

Variable cfg : Config.
Variable func : PyFunc.
Variable args : list pyval.
Variable kwargs : list (string * pyval).

(** Step 7 *)
Definition surviving (requirements : option (list string)) : list string :=
  List.filter nonempty (match requirements with Some l => l | None => [] end).

Definition install_cmd (venv_python : string) (reqs : list string) : string :=
  quote venv_python ++ " -m pip install " ++ join " " (List.map quote reqs).

Definition install_requirements (pod : PodInfo) (venv_python : string) : M unit :=
  let reqs := surviving (requirements cfg) in
  match reqs with
  | [] => ret tt
  | _ =>
      install_result <- call (CExec AtInstall pod (install_cmd venv_python reqs)) ;;
      if negb (success install_result)
      then raise (LiumError ("Failed installing requirements (" ++ join ", " reqs ++ "):"
                             ++ nl ++ stderr install_result))
      else ret tt
  end.

(** Step 9 *)
Definition download_result (pod : PodInfo) : M unit :=
  set_result_data PNone ;;
  set_result_file None ;;
  try_finally
    (try_except
       (f <- call (CMkTemp AtResultFile "") ;;
        set_result_file (Some f) ;;
        call (CDownload pod "/tmp/result.json" f) ;;
        j <- call (CReadJson f) ;;
        set_result_data (json_load j))
       (set_result_data PNone))
    (st <- get_state ;;
     match result_file st with
     | Some f =>
         if nonempty f
         then (present <- ask (QExists f) ;;
               when present (call (CUnlink AtResultFile f)))
         else ret tt
     | None => ret tt
     end).

(** Steps 5 to 9, the body of the inner [try]. *)
Definition run_remote (pod : PodInfo) (runner_file : string) : M pyval :=
  call (CUpload pod runner_file "/tmp/runner.py") ;;
  t <- ask (QTime AtVenvName) ;;
  n <- ask (QRandint 1000 9999) ;;
  let venv_path := "/tmp/lium_venv_" ++ string_of_Z t ++ "_" ++ string_of_Z n in
  set_venv_path venv_path ;;
  let venv_python := venv_path ++ "/bin/python" in
  let venv_cmd := "python3 -m venv " ++ quote venv_path in
  venv_result <- call (CExec AtVenv pod venv_cmd) ;;
  if negb (success venv_result)
  then raise (LiumError ("Failed to create virtual environment:" ++ nl ++ stderr venv_result))
  else
    install_requirements pod venv_python ;;
    exec_result <- call (CExec AtRun pod (quote venv_python ++ " /tmp/runner.py")) ;;
    download_result pod ;;
    st <- get_state ;;
    lift (classify (result_data st) exec_result).

(** Steps 1 to 9, the body of the outer [try]. *)
Definition pipeline : M pyval :=
  executors <- call CLs ;;
  match find_executor (machine cfg) executors with
  | None => raise (LiumError ("No executor found matching machine type: " ++ machine cfg))
  | Some matching_executor =>
      t <- ask (QTime AtPodName) ;;
      let pod_name := "remote-" ++ fn_name func ++ "-" ++ string_of_Z t in
      template <- call (CDefaultTemplate (id matching_executor)) ;;
      pod_dict <- call (CUp (id matching_executor) pod_name (option_map template_id template)) ;;
      let max_wait := 300%Z in
      ready <- call (CWaitReady pod_dict max_wait) ;;
      set_pod_info ready ;;
      match ready with
      | None => raise (LiumError ("Pod " ++ pod_name ++ " failed to start within "
                                  ++ string_of_Z max_wait ++ "s"))
      | Some pod =>
          func_source <- lift (fn_source func) ;;
          func_source <- lift (strip_decorators func_source) ;;
          let script := runner_script func_source (fn_name func) args kwargs in
          runner_file <- call (CMkTemp AtRunnerFile ".py") ;;
          call (CWrite runner_file script) ;;
          try_finally (run_remote pod runner_file)
                      (call (CUnlink AtRunnerFile runner_file))
      end
  end.

(** The outer [finally]: remove the virtual environment, delete the pod. *)
Definition teardown : M unit :=
  st <- get_state ;;
  match pod_info st, venv_path st with
  | Some pod, Some path =>
      try_except (call (CExec AtRmVenv pod ("rm -rf " ++ quote path)) ;; ret tt) (ret tt)
  | _, _ => ret tt
  end ;;
  match cleanup cfg, pod_info st with
  | true, Some pod => try_except (call (CDown pod)) (ret tt)
  | _, _ => ret tt
  end.

Definition wrapper : M pyval :=
  call CLium ;;
  try_finally pipeline teardown.

(** One invocation, from the initial state. *)
Definition invoke (env : Env) : Result pyval * State := wrapper env initial.

(* ================================================================= *)
(** ** Vocabulary of the statements *)

(** What Step 9 leaves in [result_data], read off the trace: the object
    loaded from the artifact when it was read, [None] otherwise. *)
Fixpoint downloaded (tr : list Event) : pyval :=
  match tr with
  | [] => PNone
  | EvReadJson _ (Ok j) :: _ => json_load j
  | _ :: rest => downloaded rest
  end.

(** The message built from the remote streams: stderr, else stdout, else
    the generic text. *)
Definition streams_message (exec_result : ExecResult) : string :=
  if nonempty (stderr exec_result) then stderr exec_result
  else if nonempty (stdout exec_result) then stdout exec_result
  else "Unknown remote error".

(** The message built from a failure artifact: its [error], with its
    [traceback] appended when there is one. *)
Definition artifact_message (d : list (string * pyval)) : string :=
  let error :=
    py_str (match dict_get "error" d with
            | Some e => e
            | None => PStr "Unknown remote error"
            end) in
  match dict_get "traceback" d with
  | Some tb =>
      if truthy tb then error ++ nl ++ nl ++ "Traceback:" ++ nl ++ py_str tb else error
  | None => error
  end.

(** The events that follow the first one satisfying [p]. *)
Fixpoint events_after (p : Event -> bool) (tr : list Event) : list Event :=
  match tr with
  | [] => []
  | ev :: rest => if p ev then rest else events_after p rest
  end.

Definition is_install (ev : Event) : bool :=
  match ev with EvExec AtInstall _ _ _ => true | _ => false end.

(** What remains of teardown after the session clean-up: the release of
    [pod] exactly when [cleanup] was asked for. *)
Definition release_tail (pod : PodInfo) (tail : list Event) : Prop :=
  if cleanup cfg then exists released, tail = [EvDown pod released] else tail = [].

(** The install events between the creation of the virtual environment
    [venv] and the run: none when no requirement survives, else the one
    successful pip command. *)
Definition install_events (pod : PodInfo) (venv : string) (installs : list Event) : Prop :=
  match surviving (requirements cfg) with
  | [] => installs = []
  | reqs =>
      exists install_result,
        installs = [EvExec AtInstall pod (install_cmd (venv ++ "/bin/python") reqs)
                           (Ok install_result)] /\
        success install_result = true
  end.



(* ================================================================= *)
(** ** Reasoning about runs *)

(** [wp m env st Q]: the run of [m] from [st] ends in an outcome and a
    state that satisfy [Q]. *)
Definition wp {A} (m : M A) (env : Env) (st : State)
  (Q : Result A -> State -> Prop) : Prop :=
  Q (fst (m env st)) (snd (m env st)).

Lemma wp_ret {A} (a : A) env st Q : Q (Ok a) st -> wp (ret a) env st Q.
Proof. exact (fun H => H). Qed.

Lemma wp_raise {A} e env st (Q : Result A -> State -> Prop) :
  Q (Raise e) st -> wp (raise e) env st Q.
Proof. exact (fun H => H). Qed.

Lemma wp_lift {A} (r : Result A) env st Q : Q r st -> wp (lift r) env st Q.
Proof. exact (fun H => H). Qed.

Lemma wp_bind {A B} (m : M A) (k : A -> M B) env st Q :
  wp m env st (fun r st' =>
                 match r with
                 | Ok a => wp (k a) env st' Q
                 | Raise e => Q (Raise e) st'
                 end) ->
  wp (bind m k) env st Q.
Proof.
  unfold wp, bind. destruct (m env st) as [[a | e] st']; simpl; trivial.
Qed.

Lemma wp_call {T} (c : Call T) env st Q :
  (forall r, Q r (record (event_of_call c r) st)) -> wp (call c) env st Q.
Proof. intros H. apply H. Qed.

Lemma wp_ask {T} (q : Query T) env st Q :
  (forall a, Q (Ok a) (record (event_of_query q a) st)) -> wp (ask q) env st Q.
Proof. intros H. apply H. Qed.

Lemma wp_try_finally {A} (body : M A) (fin : M unit) env st Q :
  wp body env st (fun r st1 =>
    wp fin env st1 (fun r2 st2 =>
      match r2 with
      | Ok _ => Q r st2
      | Raise e => Q (Raise e) st2
      end)) ->
  wp (try_finally body fin) env st Q.
Proof.
  unfold wp, try_finally. destruct (body env st) as [r st1]; simpl.
  destruct (fin env st1) as [[u | e] st2]; simpl; trivial.
Qed.

Lemma wp_try_except {A} (body handler : M A) env st Q :
  wp body env st (fun r st1 =>
                    match r with
                    | Ok a => Q (Ok a) st1
                    | Raise _ => wp handler env st1 Q
                    end) ->
  wp (try_except body handler) env st Q.
Proof.
  unfold wp, try_except. destruct (body env st) as [[a | e] st1]; simpl; trivial.
Qed.

(** A call whose exception is swallowed leaves only its trace entry. *)
Lemma wp_swallow {T} (c : Call T) env st (Q : Result unit -> State -> Prop) :
  (forall r, Q (Ok tt) (record (event_of_call c r) st)) ->
  wp (try_except (call c ;; ret tt) (ret tt)) env st Q.
Proof.
  intros H. unfold wp, try_except, bind, call, ret.
  destruct (respond env T (log st) c); apply H.
Qed.

Lemma wp_swallow_unit (c : Call unit) env st (Q : Result unit -> State -> Prop) :
  (forall r, Q (Ok tt) (record (event_of_call c r) st)) ->
  wp (try_except (call c) (ret tt)) env st Q.
Proof.
  intros H. unfold wp, try_except, call, ret.
  destruct (respond env unit (log st) c) as [[] | e]; apply H.
Qed.

Lemma wp_get_state env st Q : Q (Ok st) st -> wp get_state env st Q.
Proof. exact (fun H => H). Qed.

Lemma wp_set_pod_info p env st Q :
  Q (Ok tt) (mkState (log st) p (venv_path st) (result_data st) (result_file st)) ->
  wp (set_pod_info p) env st Q.
Proof. exact (fun H => H). Qed.

Lemma wp_set_venv_path p env st Q :
  Q (Ok tt) (mkState (log st) (pod_info st) (Some p) (result_data st) (result_file st)) ->
  wp (set_venv_path p) env st Q.
Proof. exact (fun H => H). Qed.

Lemma wp_set_result_data v env st Q :
  Q (Ok tt) (mkState (log st) (pod_info st) (venv_path st) v (result_file st)) ->
  wp (set_result_data v) env st Q.
Proof. exact (fun H => H). Qed.

Lemma wp_set_result_file p env st Q :
  Q (Ok tt) (mkState (log st) (pod_info st) (venv_path st) (result_data st) p) ->
  wp (set_result_file p) env st Q.
Proof. exact (fun H => H). Qed.

Lemma wp_invoke env (Q : Result pyval -> State -> Prop) :
  wp wrapper env initial Q -> Q (fst (invoke env)) (snd (invoke env)).
Proof. exact (fun H => H). Qed.

(** Symbolic execution of a run, one collaborator call at a time. *)
Ltac wp_simpl :=
  cbn beta iota delta [record event_of_call event_of_query log pod_info venv_path
                       result_data result_file].

Ltac wp_head m :=
  lazymatch m with
  | bind _ _ => apply wp_bind
  | call _ =>
      apply wp_call; intros [? | ?];
      [try match goal with u : unit |- _ => destruct u end |]
  | ask _ => apply wp_ask; intros ?
  | ret _ => apply wp_ret
  | raise _ => apply wp_raise
  | lift _ => apply wp_lift
  | get_state => apply wp_get_state
  | try_finally _ _ => apply wp_try_finally
  | try_except (bind (call _) (fun _ => ret tt)) (ret tt) => apply wp_swallow; intros ?
  | try_except (call _) (ret tt) => apply wp_swallow_unit; intros ?
  | try_except _ _ => apply wp_try_except
  | set_pod_info _ => apply wp_set_pod_info
  | set_venv_path _ => apply wp_set_venv_path
  | set_result_data _ => apply wp_set_result_data
  | set_result_file _ => apply wp_set_result_file
  | when ?b _ => destruct b eqn:?; unfold when
  | match ?x with _ => _ end => destruct x eqn:?
  | if ?x then _ else _ => destruct x eqn:?
  end.

Ltac wp_step :=
  wp_simpl;
  lazymatch goal with
  | |- wp ?m _ _ _ => wp_head m
  | |- match ?r with Ok _ => _ | Raise _ => _ end => destruct r eqn:?
  end.

Ltac wp_run :=
  unfold wrapper, pipeline, teardown, run_remote, download_result, install_requirements,
         initial;
  repeat wp_step;
  cbn [trace log rev app].

Ltac wp_start env :=
  pattern (fst (invoke env)), (snd (invoke env)); apply wp_invoke.

(** Case analysis on membership in an explicit list. *)
Ltac in_cases H :=
  repeat (destruct H as [H | H]; [try discriminate H | ]); try contradiction H.

(* ----------------------------------------------------------------- *)
(** *** Strings *)


Lemma append_assoc (a b c : string) : (a ++ b) ++ c = a ++ b ++ c.
Proof. induction a as [| x a IH]; simpl; [reflexivity | now rewrite IH]. Qed.

Lemma prefix_iff (n h : string) :
  String.prefix n h = true <-> exists b, h = n ++ b.
Proof.
  revert h. induction n as [| c n IH]; intros h; simpl.
  - split; [intros _; now exists h | intros _; destruct h; reflexivity].
  - destruct h as [| c' h].
    + split; [discriminate | intros [b Hb]; discriminate].
    + simpl. destruct (ascii_dec c c') as [-> | Hne].
      * rewrite IH. split; intros [b Hb]; exists b; [now rewrite Hb | now injection Hb].
      * split; [discriminate | intros [b Hb]; injection Hb; intros _ E; congruence].
Qed.

Lemma contains_iff (n h : string) :
  contains n h = true <-> exists a b, h = a ++ n ++ b.
Proof.
  induction h as [| c h IH].
  - change (contains n "") with (if String.prefix n "" then true else false).
    destruct (String.prefix n "") eqn:P.
    + split; [intros _ | reflexivity].
      apply prefix_iff in P. destruct P as [b Hb]. now exists "", b.
    + split; [discriminate |].
      intros (a & b & E). destruct a; simpl in E.
      * assert (String.prefix n "" = true) by (apply prefix_iff; now exists b). congruence.
      * discriminate.
  - change (contains n (String c h))
      with (if String.prefix n (String c h) then true else contains n h).
    destruct (String.prefix n (String c h)) eqn:P.
    + split; [intros _ | reflexivity].
      apply prefix_iff in P. destruct P as [b Hb]. now exists "", b.
    + rewrite IH. split.
      * intros (a & b & E). exists (String c a), b. simpl. now rewrite E.
      * intros (a & b & E). destruct a as [| c' a]; simpl in E.
        -- assert (String.prefix n (String c h) = true) by (apply prefix_iff; now exists b).
           congruence.
        -- injection E; intros E' _. now exists a, b.
Qed.

Lemma split_lines_nonempty s : split_lines s <> [].
Proof.
  destruct s as [| c s]; simpl; [discriminate |].
  destruct (Ascii.eqb c "010"); [discriminate |].
  destruct (split_lines s); discriminate.
Qed.

Lemma join_cons_char sep c l ls :
  join sep (String c l :: ls) = String c (join sep (l :: ls)).
Proof. destruct ls; reflexivity. Qed.

Lemma join_split_lines s : join nl (split_lines s) = s.
Proof.
  induction s as [| c s IH]; simpl; [reflexivity |].
  destruct (Ascii.eqb c "010") eqn:E.
  - apply Ascii.eqb_eq in E. subst c.
    pose proof (split_lines_nonempty s) as N.
    destruct (split_lines s) as [| l ls]; [congruence |].
    change (join nl ("" :: l :: ls)) with ("" ++ nl ++ join nl (l :: ls)).
    rewrite IH. reflexivity.
  - pose proof (split_lines_nonempty s) as N.
    destruct (split_lines s) as [| l ls]; [congruence |].
    rewrite join_cons_char, IH. reflexivity.
Qed.

Lemma def_index_first pre header post :
  Forall (fun l => contains "def " l = false) pre ->
  contains "def " header = true ->
  def_index (pre ++ header :: post)%list = Some (List.length pre).
Proof.
  intros Hpre Hh. induction Hpre as [| l pre Hl _ IH]; simpl.
  - now rewrite Hh.
  - now rewrite Hl, IH.
Qed.

Lemma def_index_some lines i :
  def_index lines = Some i ->
  exists pre header post,
    lines = (pre ++ header :: post)%list /\ List.length pre = i /\
    Forall (fun l => contains "def " l = false) pre /\
    contains "def " header = true.
Proof.
  revert i. induction lines as [| l lines IH]; intros i; simpl; [discriminate |].
  destruct (contains "def " l) eqn:E.
  - intros [= <-]. exists [], l, lines. repeat split; auto.
  - destruct (def_index lines) as [j |]; simpl; [| discriminate].
    intros [= <-]. destruct (IH j eq_refl) as (pre & h & post & -> & <- & F & H).
    exists (l :: pre), h, post. repeat split; auto.
Qed.

Lemma skipn_app_length {A} (pre post : list A) : skipn (List.length pre) (pre ++ post)%list = post.
Proof. induction pre; simpl; auto. Qed.

(* ----------------------------------------------------------------- *)
(** *** Traces *)

Lemma in_pick {A} (f : Event -> option A) tr a ev :
  In ev tr -> f ev = Some a -> In a (pick f tr).
Proof.
  intros Hin Hf. induction tr as [| x tr IH]; simpl in *; [contradiction |].
  destruct Hin as [-> | Hin].
  - rewrite Hf. now left.
  - destruct (f x); [right |]; auto.
Qed.

Lemma pick_in {A} (f : Event -> option A) tr a :
  In a (pick f tr) -> exists ev, In ev tr /\ f ev = Some a.
Proof.
  induction tr as [| x tr IH]; simpl; [contradiction |].
  destruct (f x) eqn:E.
  - intros [<- | Hin].
    + exists x. auto.
    + destruct (IH Hin) as (ev & ? & ?). exists ev. auto.
  - intros Hin. destruct (IH Hin) as (ev & ? & ?). exists ev. auto.
Qed.

Lemma triple_eq {A B C} (a a' : A) (b b' : B) (c c' : C) :
  (a, b, c) = (a', b', c') -> a = a' /\ b = b' /\ c = c'.
Proof. intros [= -> -> ->]. auto. Qed.

Lemma pair_eq {A B} (a a' : A) (b b' : B) : (a, b) = (a', b') -> a = a' /\ b = b'.
Proof. intros [= -> ->]. auto. Qed.

Lemma Ok_eq {A} (a b : A) : Ok a = Ok b -> a = b.
Proof. now intros [= ->]. Qed.

(* ----------------------------------------------------------------- *)
(** *** Step 1: the selector *)

Lemma nat_of_ascii_inj c d : nat_of_ascii c = nat_of_ascii d -> c = d.
Proof.
  intros H. rewrite <- (ascii_nat_embedding c), <- (ascii_nat_embedding d).
  now rewrite H.
Qed.

Lemma nat_of_lower_ascii c :
  nat_of_ascii (lower_ascii c)
  = if is_capital c then (nat_of_ascii c + 32)%nat else nat_of_ascii c.
Proof.
  unfold lower_ascii, is_capital.
  destruct (andb _ _) eqn:E; [| reflexivity].
  apply andb_true_iff in E. destruct E as [E1 E2].
  apply Nat.leb_le in E1, E2. apply nat_ascii_embedding. lia.
Qed.

Lemma same_letter_iff c d : same_letter c d = true <-> lower_ascii c = lower_ascii d.
Proof.
  unfold same_letter. split.
  - intros H. apply nat_of_ascii_inj. rewrite !nat_of_lower_ascii.
    apply orb_true_iff in H. destruct H as [H | H].
    + apply Ascii.eqb_eq in H. now subst d.
    + apply orb_true_iff in H.
      destruct H as [H | H]; apply andb_true_iff in H; destruct H as [Hc Hn];
        apply Nat.eqb_eq in Hn; rewrite Hc;
        unfold is_capital in *; apply andb_true_iff in Hc; destruct Hc as [H1 H2];
        apply Nat.leb_le in H1, H2.
      * destruct (andb (65 <=? nat_of_ascii d) (nat_of_ascii d <=? 90))%nat eqn:E; [| lia].
        apply andb_true_iff in E. destruct E as [E1 E2]. apply Nat.leb_le in E1, E2. lia.
      * destruct (andb (65 <=? nat_of_ascii c) (nat_of_ascii c <=? 90))%nat eqn:E; [| lia].
        apply andb_true_iff in E. destruct E as [E1 E2]. apply Nat.leb_le in E1, E2. lia.
  - intros H. apply (f_equal nat_of_ascii) in H. rewrite !nat_of_lower_ascii in H.
    unfold is_capital in *.
    destruct (andb (65 <=? nat_of_ascii c) (nat_of_ascii c <=? 90))%nat eqn:Ec;
      destruct (andb (65 <=? nat_of_ascii d) (nat_of_ascii d <=? 90))%nat eqn:Ed; simpl.
    + assert (c = d) as -> by (apply nat_of_ascii_inj; lia).
      now rewrite Ascii.eqb_refl.
    + apply orb_true_iff. right. apply orb_true_iff. left. apply Nat.eqb_eq. lia.
    + apply orb_true_iff. right. apply Nat.eqb_eq. lia.
    + rewrite orb_false_r. apply Ascii.eqb_eq. now apply nat_of_ascii_inj.
Qed.

Lemma caseless_eq_iff s t : caseless_eq s t = true <-> ascii_lower s = ascii_lower t.
Proof.
  revert t. induction s as [| c s IH]; intros [| d t]; simpl; try (split; congruence).
  rewrite andb_true_iff, same_letter_iff, IH. split.
  - intros [-> ->]. reflexivity.
  - intros [= H1 H2]. now split.
Qed.

Lemma ascii_lower_app a b : ascii_lower (a ++ b) = ascii_lower a ++ ascii_lower b.
Proof. induction a as [| c a IH]; simpl; [reflexivity | now rewrite IH]. Qed.

Lemma ascii_lower_split s x y :
  ascii_lower s = x ++ y ->
  exists s1 s2, s = s1 ++ s2 /\ ascii_lower s1 = x /\ ascii_lower s2 = y.
Proof.
  revert s. induction x as [| c x IH]; intros s H.
  - exists "", s. auto.
  - destruct s as [| d s]; [discriminate |]. simpl in H. injection H as Hc Hs.
    destruct (IH s Hs) as (s1 & s2 & -> & H1 & H2).
    exists (String d s1), s2. simpl. now rewrite Hc, H1.
Qed.

(** After ASCII folding, the substring test is the caseless one. *)
Lemma ascii_folded_substring_iff spec name :
  (exists a b, ascii_lower name = a ++ ascii_lower spec ++ b) <-> ci_substring spec name.
Proof.
  split.
  - intros (a & b & H).
    destruct (ascii_lower_split _ _ _ H) as (a' & rest & -> & Ha & Hr).
    destruct (ascii_lower_split _ _ _ Hr) as (mid & b' & -> & Hm & Hb).
    exists a', mid, b'. split; [reflexivity |]. now apply caseless_eq_iff.
  - intros (a & mid & b & -> & H). apply caseless_eq_iff in H.
    exists (ascii_lower a), (ascii_lower b). now rewrite !ascii_lower_app, H.
Qed.

Lemma folded_is_caseless_on_ascii spec name :
  folds_ascii -> is_ascii spec = true -> is_ascii name = true ->
  (folded_substring spec name <-> ci_substring spec name).
Proof.
  intros Hf Hs Hn. unfold folded_substring. rewrite (Hf _ Hs), (Hf _ Hn).
  apply ascii_folded_substring_iff.
Qed.

Lemma matches_iff machine executor :
  matches machine executor = true <-> folded_substring machine (machine_name executor).
Proof. apply contains_iff. Qed.

Lemma matches_false_iff machine executor :
  matches machine executor = false <-> ~ folded_substring machine (machine_name executor).
Proof.
  rewrite <- matches_iff. destruct (matches machine executor); split; congruence.
Qed.

Lemma find_executor_some machine executors chosen :
  find_executor machine executors = Some chosen ->
  exists before after,
    executors = (before ++ chosen :: after)%list /\
    matches machine chosen = true /\
    Forall (fun e => matches machine e = false) before.
Proof.
  induction executors as [| e rest IH]; simpl; [discriminate |].
  destruct (matches machine e) eqn:E.
  - intros [= <-]. exists [], rest. auto.
  - intros H. destruct (IH H) as (before & after & -> & Hm & Hb).
    exists (e :: before), after. auto.
Qed.

Lemma find_executor_none machine executors :
  find_executor machine executors = None ->
  Forall (fun e => matches machine e = false) executors.
Proof.
  induction executors as [| e rest IH]; simpl; [constructor |].
  destruct (matches machine e) eqn:E; [discriminate | auto].
Qed.

Lemma no_match_aborts env executors :
  In (EvLs (Ok executors)) (trace (snd (invoke env))) ->
  find_executor (machine cfg) executors = None ->
  fst (invoke env)
    = Raise (LiumError ("No executor found matching machine type: " ++ machine cfg)) /\
  trace (snd (invoke env)) = [EvLium (Ok tt); EvLs (Ok executors)].
Proof.
  intros Hin Hnone. apply (in_pick ls_of _ (Ok executors)) in Hin; [| reflexivity].
  revert Hin. wp_start env.
  wp_run; cbn [pick ls_of]; intros Hin; in_cases Hin;
    apply Ok_eq in Hin; subst executors; first [congruence | split; reflexivity].
Qed.

Lemma Some_eq {A} (a b : A) : Some a = Some b -> a = b.
Proof. now intros [= ->]. Qed.

Lemma match_proceeds env executors chosen :
  In (EvLs (Ok executors)) (trace (snd (invoke env))) ->
  find_executor (machine cfg) executors = Some chosen ->
  exists now template rest,
    trace (snd (invoke env))
    = EvLium (Ok tt) :: EvLs (Ok executors) :: EvTime AtPodName now
        :: EvDefaultTemplate (id chosen) template :: rest.
Proof.
  intros Hin Hsome. apply (in_pick ls_of _ (Ok executors)) in Hin; [| reflexivity].
  revert Hin. wp_start env.
  wp_run; cbn [pick ls_of]; intros Hin; in_cases Hin;
    apply Ok_eq in Hin; subst executors; try congruence.
  all: match goal with
       | H : find_executor _ _ = Some ?e |- _ =>
           rewrite H in Hsome; apply Some_eq in Hsome; subst e
       end.
  all: do 3 eexists; reflexivity.
Qed.

(** C4.  The selector takes the first executor, in listing order, whose
    lower-cased machine name contains the lower-cased machine spec, and the
    invocation goes on with that executor: its next request to the SDK is
    for the template of the executor chosen.  When no executor matches, the
    invocation raises the no-executor [LiumError] and its whole trace is the
    SDK construction and the listing: nothing is provisioned, nothing is
    released.  On ASCII text, where [str.lower] turns capitals into small
    letters and keeps the rest, the test is the substring match that ignores
    case: a stretch of the machine name is the spec, letter for letter, up to
    case. *)
Theorem C4_selector_first_match_or_not_found env executors :
  In (EvLs (Ok executors)) (trace (snd (invoke env))) ->
  match find_executor (machine cfg) executors with
  | Some chosen =>
      exists before after,
        executors = (before ++ chosen :: after)%list /\
        folded_substring (machine cfg) (machine_name chosen) /\
        Forall (fun e => ~ folded_substring (machine cfg) (machine_name e)) before /\
        exists now template rest,
          trace (snd (invoke env))
          = EvLium (Ok tt) :: EvLs (Ok executors) :: EvTime AtPodName now
              :: EvDefaultTemplate (id chosen) template :: rest
  | None =>
      Forall (fun e => ~ folded_substring (machine cfg) (machine_name e)) executors /\
      fst (invoke env)
        = Raise (LiumError ("No executor found matching machine type: " ++ machine cfg)) /\
      trace (snd (invoke env)) = [EvLium (Ok tt); EvLs (Ok executors)]
  end /\
  (folds_ascii -> is_ascii (machine cfg) = true ->
   forall name, is_ascii name = true ->
     (folded_substring (machine cfg) name <-> ci_substring (machine cfg) name)).
Proof.
  intros Hin. split.
  - destruct (find_executor (machine cfg) executors) as [chosen |] eqn:E.
    + destruct (find_executor_some _ _ _ E) as (before & after & Hex & Hm & Hb).
      exists before, after. split; [exact Hex |]. split; [now apply matches_iff |].
      split; [| now apply match_proceeds].
      eapply Forall_impl; [| exact Hb]. intros e. apply matches_false_iff.
    + split.
      * eapply Forall_impl; [| exact (find_executor_none _ _ E)].
        intros e. apply matches_false_iff.
      * now apply no_match_aborts.
  - intros Hf Hs name Hn. now apply folded_is_caseless_on_ascii.
Qed.


(* ----------------------------------------------------------------- *)
(** *** Step 2: provisioning *)

(** C5.  When [wait_ready] reports that the pod did not come up, it was
    asked with the 300 second bound, the invocation raises the
    failed-to-start [LiumError], and the trace ends there: no upload, no
    virtual environment, no remote command. *)
Theorem C5_provision_timeout_stops_pipeline env pod_dict timeout :
  In (EvWaitReady pod_dict timeout (Ok None)) (trace (snd (invoke env))) ->
  timeout = 300%Z /\
  (exists executors chosen now template,
     let pod_name := "remote-" ++ fn_name func ++ "-" ++ string_of_Z now in
     trace (snd (invoke env))
       = [EvLium (Ok tt); EvLs (Ok executors); EvTime AtPodName now;
          EvDefaultTemplate (id chosen) (Ok template);
          EvUp (id chosen) pod_name (option_map template_id template) (Ok pod_dict);
          EvWaitReady pod_dict 300 (Ok None)] /\
     fst (invoke env)
       = Raise (LiumError ("Pod " ++ pod_name ++ " failed to start within 300s"))) /\
  Forall (fun ev => is_remote_session ev = false) (trace (snd (invoke env))).
Proof.
  intros Hin.
  apply (in_pick wait_ready_of _ (pod_dict, timeout, Ok None)) in Hin; [| reflexivity].
  revert Hin. wp_start env.
  wp_run; cbn [pick wait_ready_of]; intros Hin; in_cases Hin.
  all: apply triple_eq in Hin; destruct Hin as (E1 & E2 & _); subst pod_dict timeout.
  all: split; [reflexivity |].
  all: split; [do 4 eexists; split; reflexivity |].
  all: repeat constructor.
Qed.


(* ----------------------------------------------------------------- *)
(** *** Steps 8 and 9: the run and its classification *)

(** Once the runner command has returned, the object Step 9 loaded is the
    one read from the artifact, and if no local file removal fails the
    invocation ends as [classify] says. *)
Lemma run_outcome env pod cmd exec_result :
  In (EvExec AtRun pod cmd (Ok exec_result)) (trace (snd (invoke env))) ->
  (pick unlink_failure_of (trace (snd (invoke env))) = [] ->
   fst (invoke env) = classify (downloaded (trace (snd (invoke env)))) exec_result) /\
  (forall path j, In (EvReadJson path (Ok j)) (trace (snd (invoke env))) ->
                  downloaded (trace (snd (invoke env))) = json_load j).
Proof.
  intros Hin.
  apply (in_pick (exec_of AtRun) _ (pod, cmd, Ok exec_result)) in Hin; [| reflexivity].
  revert Hin. wp_start env.
  wp_run; cbn [pick exec_of unlink_failure_of downloaded]; intros Hin; in_cases Hin.
  all: apply triple_eq in Hin; destruct Hin as (E1 & E2 & E3);
       apply Ok_eq in E3; subst pod cmd exec_result.
  all: (split; [intros Hu; first [discriminate Hu | reflexivity] |]).
  all: intros path j Hj;
       apply (in_pick read_json_of _ (path, Ok j)) in Hj; [| reflexivity].
  all: cbn [pick read_json_of] in Hj; in_cases Hj.
  all: apply pair_eq in Hj; destruct Hj as (E1 & E2);
       apply Ok_eq in E2; subst path j; reflexivity.
Qed.

Lemma truthy_dict d (x : pyval) k : dict_get k d = Some x -> truthy (PDict d) = true.
Proof. destruct d; [discriminate | reflexivity]. Qed.

Lemma classify_success d s v exec_result :
  dict_get "success" d = Some s -> truthy s = true ->
  dict_get "result" d = Some v ->
  classify (PDict d) exec_result = Ok v.
Proof.
  intros Hs Ht Hv. unfold classify.
  rewrite (truthy_dict d s "success" Hs). simpl. now rewrite Hs, Ht, Hv.
Qed.

Lemma classify_failure d s exec_result :
  dict_get "success" d = Some s -> truthy s = false ->
  classify (PDict d) exec_result
    = Raise (LiumError ("Remote execution failed:" ++ nl ++ artifact_message d)).
Proof.
  intros Hs Ht. unfold classify, artifact_message.
  rewrite (truthy_dict d s "success" Hs). simpl. rewrite Hs, Ht. simpl.
  destruct (dict_get "traceback" d) as [tb |]; simpl; [| reflexivity].
  destruct (truthy tb); reflexivity.
Qed.

Lemma classify_falsy result_data exec_result :
  truthy result_data = false ->
  classify result_data exec_result
    = Raise (LiumError ("Remote execution failed:" ++ nl ++ streams_message exec_result)).
Proof. intros Ht. unfold classify. now rewrite Ht. Qed.

Lemma classify_no_verdict d exec_result :
  dict_get "success" d = None ->
  classify (PDict d) exec_result
    = Raise (LiumError ("Remote execution failed:" ++ nl ++ streams_message exec_result)).
Proof.
  intros Hs. unfold classify. destruct (truthy (PDict d)); simpl; [| reflexivity].
  now rewrite Hs.
Qed.

(** C2, as the code has it.  After the runner command has returned, the
    object loaded from the artifact is classified in this order: a dict
    whose [success] is true gives its [result]; a dict whose [success] is
    present and false gives the error built from the artifact's [error]
    and [traceback], whatever the remote streams hold; and when nothing was
    loaded, or what was loaded is falsy or is a dict with no [success]
    member, the error is built from stderr, else stdout, else the generic
    text.  This classification is the outcome of the invocation when no
    local file removal fails. *)
Theorem C2_classification_priority env pod cmd exec_result :
  In (EvExec AtRun pod cmd (Ok exec_result)) (trace (snd (invoke env))) ->
  (pick unlink_failure_of (trace (snd (invoke env))) = [] ->
   fst (invoke env) = classify (downloaded (trace (snd (invoke env)))) exec_result) /\
  (forall d s v,
      downloaded (trace (snd (invoke env))) = PDict d ->
      dict_get "success" d = Some s -> truthy s = true ->
      dict_get "result" d = Some v ->
      classify (downloaded (trace (snd (invoke env)))) exec_result = Ok v) /\
  (forall d s,
      downloaded (trace (snd (invoke env))) = PDict d ->
      dict_get "success" d = Some s -> truthy s = false ->
      classify (downloaded (trace (snd (invoke env)))) exec_result
        = Raise (LiumError ("Remote execution failed:" ++ nl ++ artifact_message d))) /\
  (truthy (downloaded (trace (snd (invoke env)))) = false \/
   (exists d, downloaded (trace (snd (invoke env))) = PDict d /\
              dict_get "success" d = None) ->
   classify (downloaded (trace (snd (invoke env)))) exec_result
     = Raise (LiumError ("Remote execution failed:" ++ nl ++ streams_message exec_result))).
Proof.
  intros Hrun.
  destruct (run_outcome env pod cmd exec_result Hrun) as [Hout _].
  split; [exact Hout |]. split; [| split].
  - intros d s v -> Hs Ht Hv. now apply (classify_success d s v).
  - intros d s -> Hs Ht. now apply (classify_failure d s).
  - intros [Hfalsy | (d & -> & Hs)].
    + now apply classify_falsy.
    + now apply classify_no_verdict.
Qed.

(** C9.  An artifact that parses to a falsy object is classified as no
    artifact at all: the classification is the one of [None], the error
    built from stderr, else stdout, else the generic text, and it is the
    same for every falsy object, so no member of the artifact is read.
    This is the outcome of the invocation when no local file removal
    fails. *)
Theorem C9_falsy_artifact_as_absent env pod cmd exec_result path j :
  In (EvExec AtRun pod cmd (Ok exec_result)) (trace (snd (invoke env))) ->
  In (EvReadJson path (Ok j)) (trace (snd (invoke env))) ->
  truthy (json_load j) = false ->
  downloaded (trace (snd (invoke env))) = json_load j /\
  classify (json_load j) exec_result = classify PNone exec_result /\
  classify (json_load j) exec_result
    = Raise (LiumError ("Remote execution failed:" ++ nl ++ streams_message exec_result)) /\
  (forall other, truthy other = false ->
                 classify other exec_result = classify (json_load j) exec_result) /\
  (pick unlink_failure_of (trace (snd (invoke env))) = [] ->
   fst (invoke env) = classify PNone exec_result).
Proof.
  intros Hrun Hread Hfalsy.
  destruct (run_outcome env pod cmd exec_result Hrun) as [Hout Hload].
  specialize (Hload path j Hread).
  split; [exact Hload |]. split; [| split; [| split]].
  - now rewrite (classify_falsy _ _ Hfalsy).
  - now apply classify_falsy.
  - intros other Ho. now rewrite !classify_falsy.
  - intros Hu. rewrite (Hout Hu), Hload. now rewrite (classify_falsy _ _ Hfalsy).
Qed.

(* ----------------------------------------------------------------- *)
(** *** Step 7: requirements *)








(** X2.  When the pip command reports failure, nothing of the later stages
    happens: the runner command is never issued and no artifact is fetched.
    What follows the failed install is teardown alone: the unlink of the
    local script file, which is the file the script was written to, then
    the removal of the session's virtual environment, then the release of
    the pod exactly when [cleanup] was asked for.  The invocation raises the
    [LiumError] that names the requirements and carries the stderr of the
    install, unless the unlink itself raised: then it raises what the unlink
    raised. *)
Theorem install_failure_aborts_and_tears_down env pod cmd install_result :
  In (EvExec AtInstall pod cmd (Ok install_result)) (trace (snd (invoke env))) ->
  success install_result = false ->
  pick (exec_of AtRun) (trace (snd (invoke env))) = [] /\
  pick read_json_of (trace (snd (invoke env))) = [] /\
  exists script_path script t n unlinked removed tail,
    events_after is_install (trace (snd (invoke env)))
      = EvUnlink AtRunnerFile script_path unlinked
        :: EvExec AtRmVenv pod
             ("rm -rf " ++ quote ("/tmp/lium_venv_" ++ string_of_Z t ++ "_" ++ string_of_Z n))
             removed
        :: tail /\
    In (EvMkTemp AtRunnerFile ".py" (Ok script_path)) (trace (snd (invoke env))) /\
    In (EvWrite script_path script (Ok tt)) (trace (snd (invoke env))) /\
    In (EvTime AtVenvName t) (trace (snd (invoke env))) /\
    In (EvRandint 1000 9999 n) (trace (snd (invoke env))) /\
    release_tail pod tail /\
    fst (invoke env)
      = match unlinked with
        | Ok _ =>
            Raise (LiumError ("Failed installing requirements ("
                              ++ join ", " (surviving (requirements cfg)) ++ "):"
                              ++ nl ++ stderr install_result))
        | Raise e => Raise e
        end.
Proof.
  intros Hin Hfail.
  apply (in_pick (exec_of AtInstall) _ (pod, cmd, Ok install_result)) in Hin;
    [| reflexivity].
  revert Hin. wp_start env. unfold release_tail.
  wp_run;
    cbn [pick exec_of read_json_of events_after is_install]; intros Hin; in_cases Hin.
  all: apply triple_eq in Hin; destruct Hin as (E1 & E2 & E3);
       apply Ok_eq in E3; subst pod cmd install_result.
  all: try (rewrite Hfail in *; discriminate).
  all: split; [reflexivity |]; split; [reflexivity |].
  all: do 7 eexists; split; [reflexivity |].
  all: do 4 (split; [cbn [In]; repeat (first [left; reflexivity | right]) |]).
  all: split; [first [eexists; reflexivity | reflexivity] | reflexivity].
Qed.


(* ----------------------------------------------------------------- *)
(** *** Steps 3 to 8: the order of the stages *)

(** C7, as the code has it.  Whenever the runner command is issued, the
    trace up to it is: selection and provisioning, the script written to a
    local file, that file uploaded to [/tmp/runner.py], the virtual
    environment created, the requirements installed when there are any, and
    then the runner command, which runs [/tmp/runner.py] with the
    interpreter of that virtual environment.  The upload comes before the
    environment is built, not after. *)
Theorem C7_stage_order env pod cmd ran :
  In (EvExec AtRun pod cmd ran) (trace (snd (invoke env))) ->
  exists executors chosen now template pod_dict source script_path t n venv_result,
  exists installs tail,
    let venv := "/tmp/lium_venv_" ++ string_of_Z t ++ "_" ++ string_of_Z n in
    trace (snd (invoke env))
      = ([EvLium (Ok tt); EvLs (Ok executors); EvTime AtPodName now;
          EvDefaultTemplate (id chosen) (Ok template);
          EvUp (id chosen) ("remote-" ++ fn_name func ++ "-" ++ string_of_Z now)
               (option_map template_id template) (Ok pod_dict);
          EvWaitReady pod_dict 300 (Ok (Some pod));
          EvMkTemp AtRunnerFile ".py" (Ok script_path);
          EvWrite script_path (runner_script source (fn_name func) args kwargs) (Ok tt);
          EvUpload pod script_path "/tmp/runner.py" (Ok tt);
          EvTime AtVenvName t; EvRandint 1000 9999 n;
          EvExec AtVenv pod ("python3 -m venv " ++ quote venv) (Ok venv_result)]
         ++ installs ++ EvExec AtRun pod cmd ran :: tail)%list /\
    success venv_result = true /\
    install_events pod venv installs /\
    cmd = quote (venv ++ "/bin/python") ++ " /tmp/runner.py".
Proof.
  intros Hin.
  apply (in_pick (exec_of AtRun) _ (pod, cmd, ran)) in Hin; [| reflexivity].
  revert Hin. wp_start env. unfold install_events.
  wp_run; cbn [pick exec_of]; intros Hin; in_cases Hin.
  all: apply triple_eq in Hin; destruct Hin as (E1 & E2 & E3); subst pod cmd ran.
  all: do 10 eexists.
  all: first
         [ exists []; eexists; split; [reflexivity |]
         | eexists [_]; eexists; split; [reflexivity |] ].
  all: split; [now apply negb_false_iff |].
  all: split; [| reflexivity].
  all: try reflexivity.
  all: eexists; split; [reflexivity | now apply negb_false_iff].
Qed.


(* ----------------------------------------------------------------- *)
(** *** Steps 3 and 4: packaging *)

Lemma join_app_cons sep before x rest :
  join sep (before ++ x :: rest)%list
  = match before with
    | [] => join sep (x :: rest)
    | _ => join sep before ++ sep ++ join sep (x :: rest)
    end.
Proof.
  induction before as [| a before IH]; [reflexivity |].
  destruct before as [| b before].
  - reflexivity.
  - change (join sep ((a :: b :: before) ++ x :: rest)%list)
      with (a ++ sep ++ join sep ((b :: before) ++ x :: rest)%list).
    rewrite IH.
    change (join sep (a :: b :: before)) with (a ++ sep ++ join sep (b :: before)).
    now rewrite !append_assoc.
Qed.

Lemma strip_decorators_cut src before header rest :
  split_lines src = (before ++ header :: rest)%list ->
  Forall (fun l => contains "def " l = false) before ->
  contains "def " header = true ->
  strip_decorators src = Ok (join nl (header :: rest)).
Proof.
  intros Hs Hb Hh. unfold strip_decorators.
  rewrite Hs, (def_index_first before header rest Hb Hh).
  now rewrite skipn_app_length.
Qed.

Lemma written_script env path content written :
  In (EvWrite path content written) (trace (snd (invoke env))) ->
  exists src embedded,
    fn_source func = Ok src /\ strip_decorators src = Ok embedded /\
    content = runner_script embedded (fn_name func) args kwargs.
Proof.
  intros Hin.
  apply (in_pick write_of _ (path, content, written)) in Hin; [| reflexivity].
  revert Hin. wp_start env.
  wp_run; cbn [pick write_of]; intros Hin; in_cases Hin.
  all: apply triple_eq in Hin; destruct Hin as (E1 & E2 & E3); subst path content written.
  all: do 2 eexists; split; [first [eassumption | reflexivity] |];
       split; [eassumption | reflexivity].
Qed.

(** C8.  When the lines of the captured source are [before], then
    [header], then [rest], no line of [before] holds the text ['def '] and
    [header] does, the packager cuts at [header]: the embedded text is
    [header] and [rest] joined again, so it starts with [header]; the
    captured source is the removed
    lines followed by the embedded text, the script is the fixed header, the
    embedded text and the footer, and this script is what an invocation
    writes to the local script file. *)
Theorem C8_packager_cuts_at_first_def_line src before header rest :
  split_lines src = (before ++ header :: rest)%list ->
  Forall (fun l => contains "def " l = false) before ->
  contains "def " header = true ->
  strip_decorators src = Ok (join nl (header :: rest)) /\
  (exists tail, join nl (header :: rest) = header ++ tail) /\
  src = match before with
        | [] => join nl (header :: rest)
        | _ => join nl before ++ nl ++ join nl (header :: rest)
        end /\
  runner_script (join nl (header :: rest)) (fn_name func) args kwargs
    = script_header ++ join nl (header :: rest)
      ++ script_footer (fn_name func) (py_repr (PTuple args)) (py_repr (PDict kwargs)) /\
  (forall env path content written,
      fn_source func = Ok src ->
      In (EvWrite path content written) (trace (snd (invoke env))) ->
      content = runner_script (join nl (header :: rest)) (fn_name func) args kwargs).
Proof.
  intros Hs Hb Hh.
  pose proof (strip_decorators_cut src before header rest Hs Hb Hh) as Hcut.
  split; [exact Hcut |]. split; [| split; [| split; [reflexivity |]]].
  - destruct rest as [| l rest'].
    + exists "". simpl. clear. induction header; simpl; congruence.
    + now exists (nl ++ join nl (l :: rest')).
  - rewrite <- join_app_cons, <- Hs. symmetry. apply join_split_lines.
  - intros env path content written Hsrc Hin.
    destruct (written_script env path content written Hin) as (src' & emb & H1 & H2 & ->).
    congruence.
Qed.


(* ----------------------------------------------------------------- *)
(** *** The JSON round trip of a result *)








Lemma existsb_app_false {A} (f : A -> bool) l1 l2 :
  existsb f l1 = false -> existsb f l2 = false -> existsb f (l1 ++ l2)%list = false.
Proof. intros H1 H2. now rewrite existsb_app, H1, H2. Qed.





(* ----------------------------------------------------------------- *)
(** *** Teardown *)

(** The outer [finally] swallows what its two remote calls raise.  Both
    handlers are [except Exception]: this is about the exceptions of the
    model, instances of [Exception] all. *)
Lemma teardown_never_raises env st : fst (teardown env st) = Ok tt.
Proof.
  pattern (fst (teardown env st)), (snd (teardown env st)).
  change (wp teardown env st (fun r _ => r = Ok tt)).
  unfold teardown. repeat wp_step; reflexivity.
Qed.

(** X1.  So the outcome of Steps 1 to 9, the inner [finally] included, is the
    outcome of the invocation: removing the virtual environment and
    releasing the pod never replace it, whether they succeed or raise an
    instance of [Exception]. *)
Lemma remote_teardown_never_masks env st :
  fst (try_finally pipeline teardown env st) = fst (pipeline env st).
Proof.
  unfold try_finally. destruct (pipeline env st) as [r st1].
  pose proof (teardown_never_raises env st1) as H.
  destruct (teardown env st1) as [[[] | e] st2]; simpl in *; [reflexivity | discriminate].
Qed.

(** The inner [finally] is not guarded: what [os.unlink(runner_file)]
    raises replaces the outcome of Steps 5 to 9. *)
Lemma local_unlink_failure_masks pod runner_file env st e :
  respond env unit (log (snd (run_remote pod runner_file env st)))
          (CUnlink AtRunnerFile runner_file) = Raise e ->
  fst (try_finally (run_remote pod runner_file)
                   (call (CUnlink AtRunnerFile runner_file)) env st) = Raise e.
Proof.
  intros H. unfold try_finally, call.
  destruct (run_remote pod runner_file env st) as [r st1]. simpl in *. now rewrite H.
Qed.

End Harness.

Import Script.

(** The invocation of [f], decorated with [cfg], on no arguments in the
    scripted environment [sc]. *)
Notation run_of cfg f sc := (invoke plain_repr ascii_lower cfg f [] [] (scripted sc)).

(** Membership in an explicit trace. *)
Ltac in_trace := vm_compute; repeat (first [left; reflexivity | right]).

(* ================================================================= *)
(** ** The statements at concrete invocations *)

(** C4 at the listing of the spec, the spec in small letters: [a100]
    selects the first entry, [NVIDIA A100-SXM4-80GB], whose name holds it in
    capitals, and the invocation goes on to ask for the template of that
    executor. *)
Lemma C4_a100_selects_first_entry :
  In (EvLs (Ok listing))
     (trace (snd (run_of a100_small make_pair (smooth JNull)))) /\
  find_executor ascii_lower "a100" listing
    = Some (mkExecutor "ex-1" "NVIDIA A100-SXM4-80GB") /\
  ci_substring "a100" "NVIDIA A100-SXM4-80GB" /\
  exists before after now template rest,
    listing = (before ++ mkExecutor "ex-1" "NVIDIA A100-SXM4-80GB" :: after)%list /\
    Forall (fun e => ~ ci_substring "a100" (machine_name e)) before /\
    trace (snd (run_of a100_small make_pair (smooth JNull)))
      = EvLium (Ok tt) :: EvLs (Ok listing) :: EvTime AtPodName now
          :: EvDefaultTemplate "ex-1" template :: rest.
Proof.
  assert (H : In (EvLs (Ok listing))
                 (trace (snd (run_of a100_small make_pair (smooth JNull)))))
    by in_trace.
  destruct (C4_selector_first_match_or_not_found plain_repr ascii_lower a100_small
              make_pair [] [] (scripted (smooth JNull)) listing H) as [Hsel Hascii].
  change (find_executor ascii_lower (machine a100_small) listing)
    with (Some (mkExecutor "ex-1" "NVIDIA A100-SXM4-80GB")) in Hsel.
  destruct Hsel as (before & after & Hex & Hin & Hbefore & now & template & rest & Htr).
  assert (Hci : forall name, is_ascii name = true ->
                  (folded_substring ascii_lower "a100" name <-> ci_substring "a100" name))
    by exact (Hascii (fun s _ => eq_refl) eq_refl).
  split; [exact H |]. split; [reflexivity |].
  split; [exact (proj1 (Hci "NVIDIA A100-SXM4-80GB" eq_refl) Hin) |].
  exists before, after, now, template, rest.
  split; [exact Hex |]. split; [| exact Htr].
  destruct before as [| e before]; [constructor |].
  destruct before as [| e' before]; [| destruct before; discriminate Hex].
  discriminate Hex.
Defined.

(** The scenario of the spec as it is written: [A100]. *)
Example spec_a100_selects_first_entry :
  find_executor ascii_lower "A100" listing
    = Some (mkExecutor "ex-1" "NVIDIA A100-SXM4-80GB").
Proof. reflexivity. Qed.

(** When nothing matches, only the SDK construction and the listing
    happen. *)
Lemma no_a100_in_listing :
  fst (run_of a100 make_pair only_h200)
    = Raise (LiumError "No executor found matching machine type: A100") /\
  trace (snd (run_of a100 make_pair only_h200))
    = [EvLium (Ok tt); EvLs (Ok [mkExecutor "ex-2" "H200"])].
Proof.
  assert (H : In (EvLs (Ok [mkExecutor "ex-2" "H200"]))
                 (trace (snd (run_of a100 make_pair only_h200))))
    by in_trace.
  exact (no_match_aborts plain_repr ascii_lower a100 make_pair [] [] (scripted only_h200) _ H eq_refl).
Qed.

(** C5 at a pod that never becomes ready. *)
Lemma C5_timeout_witness :
  In (EvWaitReady (mkPodDict "remote-pair-1700000000") 300 (Ok None))
     (trace (snd (run_of a100 make_pair never_ready))) /\
  300%Z = 300%Z /\
  (exists executors chosen now template,
     let pod_name := "remote-pair-" ++ string_of_Z now in
     trace (snd (run_of a100 make_pair never_ready))
       = [EvLium (Ok tt); EvLs (Ok executors); EvTime AtPodName now;
          EvDefaultTemplate (id chosen) (Ok template);
          EvUp (id chosen) pod_name (option_map template_id template)
               (Ok (mkPodDict "remote-pair-1700000000"));
          EvWaitReady (mkPodDict "remote-pair-1700000000") 300 (Ok None)] /\
     fst (run_of a100 make_pair never_ready)
       = Raise (LiumError ("Pod " ++ pod_name ++ " failed to start within 300s"))) /\
  Forall (fun ev => is_remote_session ev = false)
         (trace (snd (run_of a100 make_pair never_ready))).
Proof.
  assert (H : In (EvWaitReady (mkPodDict "remote-pair-1700000000") 300 (Ok None))
                 (trace (snd (run_of a100 make_pair never_ready))))
    by in_trace.
  split; [exact H |].
  exact (C5_provision_timeout_stops_pipeline plain_repr ascii_lower a100 make_pair [] []
           (scripted never_ready) _ _ H).
Defined.

(** C6 fails on the code: pip fails and Step 7 raises the install error,
    but the local script file is gone when the inner [finally] unlinks it;
    [os.unlink] raises, and the invocation raises that error in place of the
    install error.  The pod is released all the same.  The same run with a
    working unlink raises the install error, which carries the stderr of
    pip. *)
Lemma C6_unlink_failure_hides_install_error :
  In (EvExec AtInstall pod
        "/tmp/lium_venv_1700000000_1000/bin/python -m pip install numpy==1.26.0"
        (Ok pip_error))
     (trace (snd (run_of a100 make_pair install_fails_script_gone))) /\
  success pip_error = false /\
  In (EvUnlink AtRunnerFile "/tmp/tmpa.py" (Raise file_not_found))
     (trace (snd (run_of a100 make_pair install_fails_script_gone))) /\
  In (EvDown pod (Ok tt))
     (trace (snd (run_of a100 make_pair install_fails_script_gone))) /\
  fst (run_of a100 make_pair install_fails_script_gone) = Raise file_not_found /\
  fst (run_of a100 make_pair install_fails)
    = Raise (LiumError ("Failed installing requirements (numpy==1.26.0):" ++ nl
                        ++ "ERROR: No matching distribution found for numpy==1.26.0")).
Proof.
  split; [in_trace |]. split; [reflexivity |]. split; [in_trace |].
  split; [in_trace |]. split; vm_compute; reflexivity.
Qed.

(** X2 at the scenario of the spec: [numpy==1.26.0] fails to install. *)
Lemma numpy_install_failure :
  (In (EvExec AtInstall pod
         "/tmp/lium_venv_1700000000_1000/bin/python -m pip install numpy==1.26.0"
         (Ok pip_error))
      (trace (snd (run_of a100 make_pair install_fails))) /\
   success pip_error = false) /\
  pick (exec_of AtRun)
       (trace (snd (run_of a100 make_pair install_fails))) = [] /\
  pick read_json_of
       (trace (snd (run_of a100 make_pair install_fails))) = [] /\
  exists script_path script t n unlinked removed tail,
    events_after is_install
      (trace (snd (run_of a100 make_pair install_fails)))
      = EvUnlink AtRunnerFile script_path unlinked
        :: EvExec AtRmVenv pod
             ("rm -rf " ++ quote ("/tmp/lium_venv_" ++ string_of_Z t ++ "_" ++ string_of_Z n))
             removed
        :: tail /\
    In (EvMkTemp AtRunnerFile ".py" (Ok script_path))
       (trace (snd (run_of a100 make_pair install_fails))) /\
    In (EvWrite script_path script (Ok tt))
       (trace (snd (run_of a100 make_pair install_fails))) /\
    In (EvTime AtVenvName t) (trace (snd (run_of a100 make_pair install_fails))) /\
    In (EvRandint 1000 9999 n) (trace (snd (run_of a100 make_pair install_fails))) /\
    release_tail a100 pod tail /\
    fst (run_of a100 make_pair install_fails)
      = match unlinked with
        | Ok _ =>
            Raise (LiumError ("Failed installing requirements ("
                              ++ join ", " (surviving (requirements a100)) ++ "):"
                              ++ nl ++ stderr pip_error))
        | Raise e => Raise e
        end.
Proof.
  assert (H : In (EvExec AtInstall pod
                    "/tmp/lium_venv_1700000000_1000/bin/python -m pip install numpy==1.26.0"
                    (Ok pip_error))
                 (trace (snd (run_of a100 make_pair install_fails))))
    by in_trace.
  split; [split; [exact H | reflexivity] |].
  exact (install_failure_aborts_and_tears_down plain_repr ascii_lower a100 make_pair [] []
           (scripted install_fails) _ _ _ H eq_refl).
Defined.

(** C7 at an invocation where every stage succeeds. *)
Lemma C7_stage_order_witness :
  In (EvExec AtRun pod "/tmp/lium_venv_1700000000_1000/bin/python /tmp/runner.py"
        (Ok ok_exec))
     (trace (snd (run_of a100 make_pair (smooth JNull)))) /\
  exists executors chosen now template pod_dict source script_path t n venv_result,
  exists installs tail,
    let venv := "/tmp/lium_venv_" ++ string_of_Z t ++ "_" ++ string_of_Z n in
    trace (snd (run_of a100 make_pair (smooth JNull)))
      = ([EvLium (Ok tt); EvLs (Ok executors); EvTime AtPodName now;
          EvDefaultTemplate (id chosen) (Ok template);
          EvUp (id chosen) ("remote-" ++ fn_name make_pair ++ "-" ++ string_of_Z now)
               (option_map template_id template) (Ok pod_dict);
          EvWaitReady pod_dict 300 (Ok (Some pod));
          EvMkTemp AtRunnerFile ".py" (Ok script_path);
          EvWrite script_path (runner_script plain_repr source (fn_name make_pair) [] [])
                  (Ok tt);
          EvUpload pod script_path "/tmp/runner.py" (Ok tt);
          EvTime AtVenvName t; EvRandint 1000 9999 n;
          EvExec AtVenv pod ("python3 -m venv " ++ quote venv) (Ok venv_result)]
         ++ installs
         ++ EvExec AtRun pod "/tmp/lium_venv_1700000000_1000/bin/python /tmp/runner.py"
                   (Ok ok_exec) :: tail)%list /\
    success venv_result = true /\
    install_events a100 pod venv installs /\
    "/tmp/lium_venv_1700000000_1000/bin/python /tmp/runner.py"
      = quote (venv ++ "/bin/python") ++ " /tmp/runner.py".
Proof.
  assert (H : In (EvExec AtRun pod
                    "/tmp/lium_venv_1700000000_1000/bin/python /tmp/runner.py"
                    (Ok ok_exec))
                 (trace (snd (run_of a100 make_pair (smooth JNull)))))
    by in_trace.
  split; [exact H |].
  exact (C7_stage_order plain_repr ascii_lower a100 make_pair [] [] (scripted (smooth JNull)) _ _ _ H).
Defined.

(** C8 at a function under one decorator line. *)
Lemma C8_decorated_function_witness :
  (split_lines pair_source
     = (["@machine('A100')"] ++ "def pair():" :: ["    return (1, 2)"])%list /\
   Forall (fun l => contains "def " l = false) ["@machine('A100')"] /\
   contains "def " "def pair():" = true) /\
  strip_decorators pair_source
    = Ok (join nl ("def pair():" :: ["    return (1, 2)"])) /\
  (exists tail, join nl ("def pair():" :: ["    return (1, 2)"]) = "def pair():" ++ tail) /\
  pair_source
    = join nl ["@machine('A100')"] ++ nl ++ join nl ("def pair():" :: ["    return (1, 2)"]) /\
  runner_script plain_repr (join nl ("def pair():" :: ["    return (1, 2)"]))
                (fn_name make_pair) [] []
    = script_header ++ join nl ("def pair():" :: ["    return (1, 2)"])
      ++ script_footer (fn_name make_pair) (py_repr plain_repr (PTuple []))
                       (py_repr plain_repr (PDict [])) /\
  (forall env path content written,
      fn_source make_pair = Ok pair_source ->
      In (EvWrite path content written)
         (trace (snd (invoke plain_repr ascii_lower a100 make_pair [] [] env))) ->
      content = runner_script plain_repr (join nl ("def pair():" :: ["    return (1, 2)"]))
                              (fn_name make_pair) [] []).
Proof.
  assert (H1 : split_lines pair_source
               = (["@machine('A100')"] ++ "def pair():" :: ["    return (1, 2)"])%list)
    by reflexivity.
  assert (H2 : Forall (fun l => contains "def " l = false) ["@machine('A100')"])
    by (repeat constructor).
  assert (H3 : contains "def " "def pair():" = true) by reflexivity.
  split; [exact (conj H1 (conj H2 H3)) |].
  exact (C8_packager_cuts_at_first_def_line plain_repr ascii_lower a100 make_pair [] []
           pair_source _ _ _ H1 H2 H3).
Defined.

(** C9 at an artifact that is the empty object. *)
Lemma C9_empty_object_witness :
  (In (EvExec AtRun pod "/tmp/lium_venv_1700000000_1000/bin/python /tmp/runner.py"
         (Ok crashed))
      (trace (snd (run_of a100 make_pair (run_fails (JObj []))))) /\
   In (EvReadJson "/tmp/tmpb" (Ok (JObj [])))
      (trace (snd (run_of a100 make_pair (run_fails (JObj []))))) /\
   truthy (json_load (JObj [])) = false) /\
  downloaded (trace (snd (run_of a100 make_pair (run_fails (JObj [])))))
    = json_load (JObj []) /\
  classify plain_repr (json_load (JObj [])) crashed = classify plain_repr PNone crashed /\
  classify plain_repr (json_load (JObj [])) crashed
    = Raise (LiumError ("Remote execution failed:" ++ nl ++ streams_message crashed)) /\
  (forall other, truthy other = false ->
                 classify plain_repr other crashed
                 = classify plain_repr (json_load (JObj [])) crashed) /\
  (pick unlink_failure_of
        (trace (snd (run_of a100 make_pair (run_fails (JObj [])))))
     = [] ->
   fst (run_of a100 make_pair (run_fails (JObj [])))
     = classify plain_repr PNone crashed).
Proof.
  assert (H1 : In (EvExec AtRun pod
                     "/tmp/lium_venv_1700000000_1000/bin/python /tmp/runner.py"
                     (Ok crashed))
                  (trace (snd (run_of a100 make_pair (run_fails (JObj []))))))
    by in_trace.
  assert (H2 : In (EvReadJson "/tmp/tmpb" (Ok (JObj [])))
                  (trace (snd (run_of a100 make_pair (run_fails (JObj []))))))
    by in_trace.
  split; [exact (conj H1 (conj H2 eq_refl)) |].
  exact (C9_falsy_artifact_as_absent plain_repr ascii_lower a100 make_pair [] []
           (scripted (run_fails (JObj []))) _ _ _ _ _ H1 H2 eq_refl).
Defined.

(** The invocation itself then raises the error built from stderr. *)
Example empty_object_ends_in_stderr_error :
  fst (run_of a100 make_pair (run_fails (JObj [])))
    = Raise (LiumError ("Remote execution failed:" ++ nl ++ "boom")).
Proof. reflexivity. Qed.


(** The script this remote machine was sent and ran is the runner script of
    [make_point]. *)
Example point_script_is_generated :
  runner_script plain_repr ("def point():" ++ nl ++ "    return {'x': 1}") "point" [] []
    = point_script /\
  In (EvWrite "/tmp/tmpa.py" point_script (Ok tt))
     (trace (snd (invoke plain_repr ascii_lower a100_plain make_point [] []
                         (remote_world point_interpreter (smooth JNull))))).
Proof. split; [vm_compute; reflexivity | in_trace]. Qed.

(** The round trip of the spec: the function returns [{"x": 1}] and so
    does the invocation. *)
Example point_round_trip :
  fst (run_of a100_plain make_point (smooth point_artifact))
    = Ok (PDict [("x", PInt 1)]).
Proof. reflexivity. Qed.


(** C2 at a failure artifact with text on both remote streams. *)
Lemma C2_classification_witness :
  In (EvExec AtRun pod "/tmp/lium_venv_1700000000_1000/bin/python /tmp/runner.py"
        (Ok crashed))
     (trace (snd (run_of a100_plain make_pair (run_fails zero_division_artifact)))) /\
  (pick unlink_failure_of
        (trace (snd (run_of a100_plain make_pair (run_fails zero_division_artifact))))
     = [] ->
   fst (run_of a100_plain make_pair (run_fails zero_division_artifact))
     = classify plain_repr
         (downloaded (trace (snd (run_of a100_plain make_pair (run_fails zero_division_artifact)))))
         crashed) /\
  (forall d s v,
      downloaded (trace (snd (run_of a100_plain make_pair (run_fails zero_division_artifact))))
        = PDict d ->
      dict_get "success" d = Some s -> truthy s = true ->
      dict_get "result" d = Some v ->
      classify plain_repr
        (downloaded (trace (snd (run_of a100_plain make_pair (run_fails zero_division_artifact)))))
        crashed = Ok v) /\
  (forall d s,
      downloaded (trace (snd (run_of a100_plain make_pair (run_fails zero_division_artifact))))
        = PDict d ->
      dict_get "success" d = Some s -> truthy s = false ->
      classify plain_repr
        (downloaded (trace (snd (run_of a100_plain make_pair (run_fails zero_division_artifact)))))
        crashed
        = Raise (LiumError ("Remote execution failed:" ++ nl
                            ++ artifact_message plain_repr d))) /\
  (truthy (downloaded
             (trace (snd (run_of a100_plain make_pair (run_fails zero_division_artifact)))))
     = false \/
   (exists d,
       downloaded (trace (snd (run_of a100_plain make_pair (run_fails zero_division_artifact))))
         = PDict d /\
       dict_get "success" d = None) ->
   classify plain_repr
     (downloaded (trace (snd (run_of a100_plain make_pair (run_fails zero_division_artifact)))))
     crashed
     = Raise (LiumError ("Remote execution failed:" ++ nl ++ streams_message crashed))).
Proof.
  assert (H1 : In (EvExec AtRun pod
                     "/tmp/lium_venv_1700000000_1000/bin/python /tmp/runner.py"
                     (Ok crashed))
                  (trace (snd (run_of a100_plain make_pair (run_fails zero_division_artifact)))))
    by in_trace.
  split; [exact H1 |].
  exact (C2_classification_priority plain_repr ascii_lower a100_plain make_pair [] []
           (scripted (run_fails zero_division_artifact)) _ _ _ H1).
Defined.

(** With [success] false in the artifact the error comes from the artifact,
    though stderr holds text. *)
Example artifact_error_wins_over_stderr :
  stderr crashed = "boom" /\
  fst (run_of a100_plain make_pair (run_fails zero_division_artifact))
    = Raise (LiumError ("Remote execution failed:" ++ nl ++ "division by zero"
                        ++ nl ++ nl ++ "Traceback:" ++ nl
                        ++ "Traceback (most recent call last):" ++ nl
                        ++ "ZeroDivisionError: division by zero" ++ nl)).
Proof. split; reflexivity. Qed.

(** C2 as stated fails: the artifact exists and parses, to a dict that
    has no [success] member, and the error is built from stderr. *)
Lemma C2_parsed_artifact_yet_stderr_error :
  In (EvReadJson "/tmp/tmpb" (Ok (JObj [("result", JNum 42)])))
     (trace (snd (run_of a100_plain make_pair (run_fails (JObj [("result", JNum 42)]))))) /\
  downloaded (trace (snd (run_of a100_plain make_pair (run_fails (JObj [("result", JNum 42)])))))
    = PDict [("result", PInt 42)] /\
  stderr crashed = "boom" /\
  fst (run_of a100_plain make_pair (run_fails (JObj [("result", JNum 42)])))
    = Raise (LiumError ("Remote execution failed:" ++ nl ++ "boom")).
Proof.
  split; [in_trace |]. split; [reflexivity |]. split; reflexivity.
Qed.

(** C3 fails on the code: every stage succeeds and the artifact holds the
    result, but the local script file is gone when the inner [finally]
    unlinks it; [os.unlink] raises and the invocation raises that error
    instead of returning the result.  The same run with a working unlink
    returns the result. *)
Lemma C3_unlink_failure_replaces_result :
  fst (run_of a100_plain make_point (smooth point_artifact))
    = Ok (PDict [("x", PInt 1)]) /\
  In (EvUnlink AtRunnerFile "/tmp/tmpa.py" (Raise file_not_found))
     (trace (snd (run_of a100_plain make_point (script_file_gone point_artifact)))) /\
  fst (run_of a100_plain make_point (script_file_gone point_artifact))
    = Raise file_not_found.
Proof.
  split; [reflexivity |]. split; [in_trace | reflexivity].
Qed.

(** C7 as stated fails: the script is uploaded before any virtual
    environment exists and before anything is installed; both come after
    the upload. *)
Lemma C7_upload_precedes_environment :
  exists before after,
    trace (snd (run_of a100 make_pair (smooth JNull)))
      = (before ++ EvUpload pod "/tmp/tmpa.py" "/tmp/runner.py" (Ok tt) :: after)%list /\
    pick (exec_of AtVenv) before = [] /\
    pick (exec_of AtInstall) before = [] /\
    pick (exec_of AtVenv) after
      = [(pod, "python3 -m venv /tmp/lium_venv_1700000000_1000", Ok ok_exec)] /\
    pick (exec_of AtInstall) after
      = [(pod, "/tmp/lium_venv_1700000000_1000/bin/python -m pip install numpy==1.26.0",
          Ok ok_exec)].
Proof.
  exists (firstn 8 (trace (snd (run_of a100 make_pair (smooth JNull))))),
         (skipn 9 (trace (snd (run_of a100 make_pair (smooth JNull))))).
  vm_compute. repeat split; reflexivity.
Qed.

